(** * Ezkl-ML: the EZKL pipeline driver and the model-preparation scripts

    A shallow embedding of
      - [src/ezkl/script/run_ezkl.py]      (module [RunEzkl]),
      - [src/ezkl/create_model.py]         (module [CreateModel]),
      - [src/ezkl/script/create_model.py]  (module [ScriptCreateModel]),
    over a small model of the Python process they run in (module [Py]).

    The scripts are sequences of calls into the operating system and into
    libraries (os.chdir, subprocess.run, json.loads, torch, open).  What those
    calls answer is not decided by the scripts: it is collected in a record
    [World], and every theorem quantifies over it.  A run produces a log of
    the calls made and of the lines printed, and an exit status.

    How argparse reads the command line of run_ezkl.py is taken from outside
    as well: [RunEzkl.main] starts from the answer of [parse_args] (the
    namespace, the help, or a rejection), and [RunEzkl.run] is the run once
    the namespace is there.  Outside the model: failures of [print], and
    signals delivered to the interpreter itself. *)

From Stdlib Require Import String Ascii List ZArith Bool Lia Floats.
Import ListNotations.
Set Warnings "-inexact-float,-register-all".
Local Open Scope string_scope.
Local Open Scope list_scope.

(* ===================================================================== *)
(** ** The Python process model                                           *)
(* ===================================================================== *)

Module Py.

(** Values produced by [json.loads]: Python ints are unbounded, Python floats
    are IEEE binary64. *)
Inductive json : Type :=
| JNull
| JBool (b : bool)
| JInt (z : Z)
| JFloat (x : float)
| JString (s : string)
| JArray (items : list json)
| JObject (fields : list (string * json)).

(** The two network classes the scripts define. *)
Inductive network : Type :=
| LinearCreditScoreModel      (* src/ezkl/create_model.py *)
| CreditScoreModel.           (* src/ezkl/script/create_model.py *)

(** What [subprocess.run] observes of a child: it ran to completion with a
    return code (and wrote some text to its stdout/stderr), or it could not be
    started at all (the call raises an [OSError]). *)
Inductive completed : Type :=
| Returned (returncode : Z) (output : string)
| NotStarted.

(** The exceptions the scripts can meet.  All of them derive from Python's
    [Exception]; [JSONDecodeError] moreover derives from [ValueError]. *)
Inductive exn : Type :=
| OSError
| CalledProcessError (returncode : Z) (cmd : list string)
| JSONDecodeError
| ValueError (msg : string)
| OverflowError
| TorchError.                (* whatever torch raises *)

(** A statement either completes with a value, raises an exception, or
    raises [SystemExit] through [sys.exit] (not an [Exception]). *)
Inductive result (A : Type) : Type :=
| Val (a : A)
| Raise (e : exn)
| SystemExit (code : Z).
Arguments Val {A} a.
Arguments Raise {A} e.
Arguments SystemExit {A} code.

(** A printed line is kept as the pieces of its f-string, so that no float or
    container formatting has to be modelled. *)
Inductive piece : Type :=
| Text (s : string)
| Repr (v : json)            (* {features} *)
| Fixed4 (x : float)         (* {score:.4f} *)
| Dec (z : Z)                (* {scaled_score} *)
| PyBool (b : bool).         (* {score > 0.5} *)

(** The log of a run: every call that reaches outside the process, with what
    it answered, and every line printed. *)
Inductive event : Type :=
| Chdir (path : string) (entered : bool)
| Spawn (cwd : option string) (cmd : list string) (captured : bool)
        (answer : completed)
| Print (line : list piece)
| Makedirs (path : string) (done : bool)
| Export (net : network) (path : string) (done : bool)
| OpenW (path : string) (opened : bool)
| Dump (path : string) (content : json).

(** Everything a run takes from outside. *)
Record World : Type := {
  chdir_ok    : string -> bool;                 (* os.chdir succeeds *)
  spawn       : list string -> completed;       (* the child for a command *)
  json_loads  : string -> option json;          (* None: JSONDecodeError *)
  torch_score : network -> json -> option float;(* tensor + forward + item *)
  export_ok   : network -> string -> bool;      (* torch.onnx.export *)
  makedirs_ok : string -> bool;
  open_ok     : string -> bool;                 (* open(path, "w") *)
  clock       : nat -> Z                        (* int(time.time()), k-th read *)
}.

Record State : Type := {
  cwd   : option string;       (* None: the directory the process started in *)
  reads : nat                  (* number of clock reads so far *)
}.

Definition start : State := {| cwd := None; reads := 0 |}.

(** A statement run in a world from a state: its outcome, the new state and
    the events it added to the log.  The scripts never read the log back, so
    it is an output only. *)
Definition M (A : Type) : Type :=
  World -> State -> result A * State * list event.

Definition ret {A} (a : A) : M A := fun _ s => (Val a, s, []).

Definition bind {A B} (m : M A) (k : A -> M B) : M B :=
  fun w s =>
    match m w s with
    | (Val a, s1, l1) => let '(r, s2, l2) := k a w s1 in (r, s2, l1 ++ l2)
    | (Raise e, s1, l1) => (Raise e, s1, l1)
    | (SystemExit c, s1, l1) => (SystemExit c, s1, l1)
    end.

Definition raise {A} (e : exn) : M A := fun _ s => (Raise e, s, []).

(** [sys.exit(code)] *)
Definition sys_exit {A} (code : Z) : M A :=
  fun _ s => (SystemExit code, s, []).

(** [try: m  except Exception: h] -- [SystemExit] passes through. *)
Definition try_except_Exception {A} (m : M A) (h : exn -> M A) : M A :=
  fun w s =>
    match m w s with
    | (Raise e, s1, l1) => let '(r, s2, l2) := h e w s1 in (r, s2, l1 ++ l2)
    | other => other
    end.

(** [try: m  except json.JSONDecodeError: h1  except ValueError as e: h2 e]
    -- the first clause that matches handles the exception, so a
    [JSONDecodeError] never reaches the second one. *)
Definition try_except_decode_value {A} (m : M A) (h1 : M A)
    (h2 : string -> M A) : M A :=
  fun w s =>
    match m w s with
    | (Raise JSONDecodeError, s1, l1) =>
        let '(r, s2, l2) := h1 w s1 in (r, s2, l1 ++ l2)
    | (Raise (ValueError e), s1, l1) =>
        let '(r, s2, l2) := h2 e w s1 in (r, s2, l1 ++ l2)
    | other => other
    end.

(** [print(...)] *)
Definition print (line : list piece) : M unit :=
  fun _ s => (Val tt, s, [Print line]).

Definition print_str (s : string) : M unit := print [Text s].

(** [os.chdir(path)] *)
Definition os_chdir (path : string) : M unit :=
  fun w s =>
    if chdir_ok w path
    then (Val tt, {| cwd := Some path; reads := reads s |}, [Chdir path true])
    else (Raise OSError, s, [Chdir path false]).

(** [subprocess.run(cmd, check=check, stdout=PIPE, stderr=PIPE)] when
    [captured], [subprocess.run(cmd, check=check)] otherwise; the value is
    the [returncode] of the CompletedProcess. *)
Definition subprocess_run (cmd : list string) (check captured : bool) : M Z :=
  fun w s =>
    let e := Spawn (cwd s) cmd captured (spawn w cmd) in
    match spawn w cmd with
    | NotStarted => (Raise OSError, s, [e])
    | Returned rc _ =>
        if check && negb (rc =? 0)%Z
        then (Raise (CalledProcessError rc cmd), s, [e])
        else (Val rc, s, [e])
    end.

(** [json.loads(text)] *)
Definition loads (text : string) : M json :=
  fun w s =>
    match json_loads w text with
    | Some v => (Val v, s, [])
    | None => (Raise JSONDecodeError, s, [])
    end.

(** [os.makedirs(path, exist_ok=True)] *)
Definition os_makedirs (path : string) : M unit :=
  fun w s =>
    if makedirs_ok w path
    then (Val tt, s, [Makedirs path true])
    else (Raise OSError, s, [Makedirs path false]).

(** [torch.tensor([features], dtype=torch.float32)] followed by
    [model(input_tensor).item()] for a fresh instance of the class [net]. *)
Definition score_of (net : network) (features : json) : M float :=
  fun w s =>
    match torch_score w net features with
    | Some x => (Val x, s, [])
    | None => (Raise TorchError, s, [])
    end.

(** [export(model, input_tensor, path, ...)] from [torch.onnx]. *)
Definition onnx_export (net : network) (path : string) : M unit :=
  fun w s =>
    if export_ok w net path
    then (Val tt, s, [Export net path true])
    else (Raise TorchError, s, [Export net path false]).

(** [with open(path, "w") as f: json.dump(content, f, indent=2)] *)
Definition dump_to (path : string) (content : json) : M unit :=
  fun w s =>
    if open_ok w path
    then (Val tt, s, [OpenW path true; Dump path content])
    else (Raise OSError, s, [OpenW path false]).

(** [int(time.time())] *)
Definition time_now : M Z :=
  fun w s => (Val (clock w (reads s)),
              {| cwd := cwd s; reads := S (reads s) |}, []).

(** [int(x)] for a float [x]: truncation towards zero; NaN and the
    infinities have no integer. *)
Definition int (x : float) : M Z :=
  match Prim2SF x with
  | S754_zero _ => ret 0%Z
  | S754_finite sign m e =>
      let magnitude := Z.shiftl (Z.pos m) e in
      ret (if sign then (- magnitude)%Z else magnitude)
  | S754_infinity _ => raise OverflowError
  | S754_nan => raise (ValueError "cannot convert float NaN to integer")
  end.

Fixpoint endswith_sep (s : string) : bool :=
  match s with
  | EmptyString => false
  | String c EmptyString => Ascii.eqb c "/"%char
  | String _ rest => endswith_sep rest
  end.

(** [os.path.join(a, b)] (posixpath). *)
Definition path_join (a b : string) : string :=
  if String.prefix "/" b then b
  else if (a =? "") || endswith_sep a then a ++ b
  else a ++ "/" ++ b.

(** The exit status of the interpreter: 0 after the script's last statement,
    the argument of [sys.exit], 1 after an uncaught exception. *)
Definition exit_status {A} (r : result A) : Z :=
  match r with
  | Val _ => 0
  | Raise _ => 1
  | SystemExit c => c
  end.

(** [' '.join(cmd)] *)
Definition join (sep : string) (l : list string) : string :=
  String.concat sep l.

(** What reaches the operator's console: printed lines, and the output of
    children whose stdout/stderr were not redirected to pipes. *)
Inductive shown : Type :=
| Line (l : list piece)
| ChildOutput (cmd : list string) (text : string).

Definition console_of (e : event) : list shown :=
  match e with
  | Print l => [Line l]
  | Spawn _ cmd false (Returned _ out) => [ChildOutput cmd out]
  | _ => []
  end.

Definition console (tr : list event) : list shown := flat_map console_of tr.

(** The commands handed to [subprocess.run], in order. *)
Definition invoked_of (e : event) : list (list string) :=
  match e with
  | Spawn _ cmd _ _ => [cmd]
  | _ => []
  end.

Definition invoked (tr : list event) : list (list string) :=
  flat_map invoked_of tr.

End Py.

Module PyNotations.
Notation "x <- m ;; k" := (Py.bind m (fun x => k))
  (at level 61, m at next level, right associativity).
Notation "m ;; k" := (Py.bind m (fun _ => k))
  (at level 61, right associativity).
Notation "' pat <- m ;; k" :=
  (Py.bind m (fun x => match x with pat => k end))
  (at level 61, pat pattern, m at next level, right associativity).
End PyNotations.

(* ===================================================================== *)
(** ** src/ezkl/script/run_ezkl.py                                        *)
(* ===================================================================== *)

Module RunEzkl.
Import Py PyNotations.

(** The [args] namespace returned by [parser.parse_args()] (lines 8-13): the
    three required options and the [--generate-contract] switch. *)
Record Namespace : Type := {
  working_dir : string;
  model_path : string;
  srs_path : string;
  generate_contract : bool
}.

(** Line 19: the command of the installation check. *)
Definition preflight : list string := ["ezkl"; "--help"].

(** Line 21. *)
Definition not_found_message : string :=
  "EZKL not found. Please install it with: pip install ezkl".

(** Lines 24-32. *)
Definition steps (args : Namespace) : list (list string * string) :=
  [ (["ezkl"; "gen-settings"; "-M"; model_path args; "-O"; "settings.json"],
     "Generating circuit settings...");
    (["ezkl"; "calibrate-settings"; "-M"; model_path args; "-D"; "input.json";
      "-O"; "settings.json"],
     "Calibrating settings...");
    (["ezkl"; "compile-circuit"; "-M"; model_path args; "--compiled-circuit";
      "model.compiled"; "-S"; "settings.json"],
     "Compiling model to circuit...");
    (["ezkl"; "setup"; "-M"; "model.compiled"; "--pk-path"; "pk.key";
      "--vk-path"; "vk.key"; "--srs-path"; srs_path args],
     "Running setup to generate keys...");
    (["ezkl"; "gen-witness"; "-D"; "input.json"; "-M"; "model.compiled"; "-O";
      "witness.json"],
     "Generating witness...");
    (["ezkl"; "prove"; "--witness"; "witness.json"; "--proof-path";
      "proof.json"; "--pk-path"; "pk.key"; "--compiled-circuit";
      "model.compiled"; "--srs-path"; srs_path args],
     "Generating proof...");
    (["ezkl"; "verify"; "--proof-path"; "proof.json"; "--vk-path"; "vk.key";
      "--srs-path"; srs_path args],
     "Verifying proof locally...") ].

(** Lines 42-45. *)
Definition contract_step (args : Namespace) : list (list string * string) :=
  [ (["ezkl"; "create-evm-verifier"; "--vk-path"; "vk.key"; "--sol-code-path";
      "Halo2Verifier.sol"; "--srs-path"; srs_path args],
     "Generating Solidity verifier contract...");
    (["ezkl"; "encode-evm-calldata"; "--proof-path"; "proof.json";
      "--calldata-path"; "calldata.json"],
     "Generating calldata for on-chain verification...") ].

(** Line 38 (and 50). *)
Definition failed_step (cmd : list string) : string :=
  "Failed step: " ++ join " " cmd.

(** The loop of lines 34-39, which lines 46-51 repeat word for word over
    [contract_step]. *)
Fixpoint for_steps (l : list (list string * string)) : M unit :=
  match l with
  | [] => ret tt
  | (cmd, msg) :: rest =>
      print_str msg ;;
      returncode <- subprocess_run cmd false false ;;
      (if negb (returncode =? 0)%Z
       then print_str (failed_step cmd) ;; sys_exit 1
       else ret tt) ;;
      for_steps rest
  end.

(** What [parser.parse_args()] (lines 8-13) makes of the command line.  The
    parser declares three required options and one switch, and argparse
    adds [-h]/[--help]: the call returns the namespace, or prints the help
    text to the standard output and leaves with [SystemExit(0)], or writes
    the usage and an error message to the standard error and leaves with
    [SystemExit(2)] (a required option is missing, an option is unknown, a
    value is missing).  Which of the three happens is argparse's business
    and is taken from outside, as the answer of the call. *)
Inductive parsed : Type :=
| Parsed (args : Namespace)
| Help (text : string)
| Rejected (message : string).

(** Line 13.  The log keeps what goes to the standard output; the message of
    a rejected command line goes to the standard error, as a traceback
    does. *)
Definition parse_args (answer : parsed) : M Namespace :=
  match answer with
  | Parsed args => ret args
  | Help text => print_str text ;; sys_exit 0
  | Rejected _ => sys_exit 2
  end.

(** Lines 15-53: what [main] does with the namespace of line 13. *)
Definition main_body (args : Namespace) : M unit :=
  os_chdir (working_dir args) ;;
  try_except_Exception
    (subprocess_run preflight true true ;; ret tt)
    (fun _ => print_str not_found_message ;; sys_exit 1) ;;
  for_steps (steps args) ;;
  (if generate_contract args
   then for_steps (contract_step args)
   else ret tt) ;;
  print_str "EZKL processing complete!".

(** Lines 7-53: [main], for the command line that argparse answers with
    [cmdline]. *)
Definition main (cmdline : parsed) : M unit :=
  args <- parse_args cmdline ;;
  main_body args.

(** One run of the script in a world, once the command line is parsed to
    [args]: the log and the exit status. *)
Definition run (args : Namespace) (w : World) : list event * Z :=
  let '(r, _, l) := main_body args w start in (l, exit_status r).

Definition trace (args : Namespace) (w : World) : list event :=
  fst (run args w).

Definition status (args : Namespace) (w : World) : Z :=
  snd (run args w).

(** One run of the script from its command line. *)
Definition main_run (cmdline : parsed) (w : World) : list event * Z :=
  let '(r, _, l) := main cmdline w start in (l, exit_status r).

Definition main_trace (cmdline : parsed) (w : World) : list event :=
  fst (main_run cmdline w).

Definition main_status (cmdline : parsed) (w : World) : Z :=
  snd (main_run cmdline w).

End RunEzkl.

(* ===================================================================== *)
(** ** src/ezkl/create_model.py                                           *)
(* ===================================================================== *)

Module CreateModel.
Import Py PyNotations.

(** Lines 59-64. *)
Definition tier_of (score : float) : string :=
  if (score <? 0.4)%float then "LOW"
  else if (score <? 0.7)%float then "MEDIUM"
  else "HIGH".

(** Lines 10-26: the value is [(output_dir, address, features)]. *)
Definition validate (argv : list string) : M (string * string * json) :=
  if (length argv <? 4)%nat
  then
    print_str
      "Usage: python3 create_model.py <output_dir> <address> <features>" ;;
    sys_exit 1
  else
    let output_dir := nth 1 argv "" in
    let address := nth 2 argv "" in
    try_except_decode_value
      (features <- loads (nth 3 argv "") ;;
       match features with
       | JArray items =>
           if negb (length items =? 4)%nat
           then raise (ValueError "Features must be a list of 4 numbers")
           else ret (output_dir, address, features)
       | _ => raise (ValueError "Features must be a list of 4 numbers")
       end)
      (print_str "Error: Features must be a valid JSON array" ;; sys_exit 1)
      (fun e => print [Text "Error: "; Text e] ;; sys_exit 1).

(** Lines 29-68: the output directory, the score, and the report. *)
Definition scoring (output_dir address : string) (features : json) : M float :=
  os_makedirs output_dir ;;
  score <- score_of LinearCreditScoreModel features ;;
  print [Text "Address: "; Text address] ;;
  print [Text "Features: "; Repr features] ;;
  print [Text "Calculated score: "; Fixed4 score] ;;
  print [Text "Credit tier: "; Text (tier_of score)] ;;
  print [Text "Threshold for favorable rate: 0.5"] ;;
  print [Text "Qualifies for favorable rate (100% collateral): ";
         PyBool (0.5 <? score)%float] ;;
  ret score.

(** Lines 70-79. *)
Definition export_step (output_dir : string) : M unit :=
  let model_path := path_join output_dir "credit_model.onnx" in
  onnx_export LinearCreditScoreModel model_path.

(** Lines 81-124. *)
Definition artifacts (output_dir address : string) (features : json)
    (score : float) : M unit :=
  scaled_score <- int (score * 1000)%float ;;
  print [Text "Scaled score (0-1000): "; Dec scaled_score] ;;
  let ezkl_input :=
    JObject [ ("input_shapes", JArray [JArray [JInt 4]]);
              ("input_data", JArray [features]);
              ("output_data", JArray [JArray [JFloat score]]);
              ("public_output_idxs", JArray [JArray [JInt 0; JInt 0]]) ] in
  let input_path := path_join output_dir "input.json" in
  dump_to input_path ezkl_input ;;
  timestamp <- time_now ;;
  let debug_info :=
    JObject [ ("address", JString address);
              ("features", features);
              ("original_score", JFloat score);
              ("scaled_score", JInt scaled_score);
              ("credit_tier", JString (tier_of score));
              ("favorable_rate_eligible", JBool (0.5 <? score)%float);
              ("timestamp", JInt timestamp) ] in
  let debug_path := path_join output_dir "scaling_debug.json" in
  dump_to debug_path debug_info ;;
  timestamp <- time_now ;;
  let metadata :=
    JObject [ ("address", JString address);
              ("features", features);
              ("score", JFloat score);
              ("scaled_score", JInt scaled_score);
              ("timestamp", JInt timestamp);
              ("model_version", JString "1.0.0") ] in
  let metadata_path := path_join output_dir "metadata.json" in
  dump_to metadata_path metadata.

(** The whole script. *)
Definition script (argv : list string) : M unit :=
  '(output_dir, address, features) <- validate argv ;;
  score <- scoring output_dir address features ;;
  export_step output_dir ;;
  artifacts output_dir address features score ;;
  print [Text "Model converted to ONNX and input prepared for EZKL in ";
         Text output_dir].

Definition run (argv : list string) (w : World) : list event * Z :=
  let '(r, _, l) := script argv w start in (l, exit_status r).

Definition trace (argv : list string) (w : World) : list event :=
  fst (run argv w).

Definition status (argv : list string) (w : World) : Z :=
  snd (run argv w).

End CreateModel.

(* ===================================================================== *)
(** ** src/ezkl/script/create_model.py                                    *)
(* ===================================================================== *)

Module ScriptCreateModel.
Import Py PyNotations.

(** Lines 62-67. *)
Definition tier_of (score : float) : string :=
  if (score <? 0.4)%float then "LOW"
  else if (score <? 0.7)%float then "MEDIUM"
  else "HIGH".

(** Line 37, read back by [model.weights.tolist()[0]] (line 113): the
    binary32 values nearest to 0.3, 0.2, 0.2, 0.3. *)
Definition model_weights : list float :=
  [0x1.333334p-2; 0x1.99999ap-3; 0x1.99999ap-3; 0x1.333334p-2]%float.

(** Lines 10-28: the value is
    [(output_dir, address, features, generate_model)]. *)
Definition validate (argv : list string)
    : M (string * string * json * bool) :=
  if (length argv <? 5)%nat
  then
    print_str
      "Usage: python3 ./script/create_model.py <output_dir> <address> <features> <generate_model_flag>" ;;
    print_str
      "where generate_model_flag is 1 to generate model or 0 to skip model generation" ;;
    sys_exit 1
  else
    let output_dir := nth 1 argv "" in
    let address := nth 2 argv "" in
    try_except_decode_value
      (features <- loads (nth 3 argv "") ;;
       let generate_model := (nth 4 argv "" =? "1") in
       match features with
       | JArray items =>
           if negb (length items =? 4)%nat
           then raise (ValueError "Features must be a list of 4 numbers")
           else ret (output_dir, address, features, generate_model)
       | _ => raise (ValueError "Features must be a list of 4 numbers")
       end)
      (print_str "Error: Features must be a valid JSON array" ;; sys_exit 1)
      (fun e => print [Text "Error: "; Text e] ;; sys_exit 1).

(** Lines 30-71: the output directory, the score, and the report. *)
Definition scoring (output_dir address : string) (features : json) : M float :=
  os_makedirs output_dir ;;
  score <- score_of CreditScoreModel features ;;
  print [Text "Address: "; Text address] ;;
  print [Text "Features: "; Repr features] ;;
  print [Text "Calculated score: "; Fixed4 score] ;;
  print [Text "Credit tier: "; Text (tier_of score)] ;;
  print [Text "Threshold for favorable rate: 0.5"] ;;
  print [Text "Qualifies for favorable rate (100% collateral): ";
         PyBool (0.5 <? score)%float] ;;
  ret score.

(** Lines 73-86. *)
Definition export_step (output_dir : string) (generate_model : bool)
    : M unit :=
  let model_path := path_join output_dir "credit_model.onnx" in
  if generate_model
  then
    print [Text "Generating model file: "; Text model_path] ;;
    onnx_export CreditScoreModel model_path
  else print_str "Skipping model generation as per flag".

(** Lines 88-133. *)
Definition artifacts (output_dir address : string) (features : json)
    (score : float) : M unit :=
  scaled_score <- int (score * 1000)%float ;;
  print [Text "Scaled score (0-1000): "; Dec scaled_score] ;;
  let ezkl_input :=
    JObject [ ("input_shapes", JArray [JArray [JInt 4]]);
              ("input_data", JArray [features]);
              ("output_data", JArray [JArray [JFloat score]]);
              ("public_output_idxs", JArray [JArray [JInt 0; JInt 0]]) ] in
  let input_path := path_join output_dir "input.json" in
  dump_to input_path ezkl_input ;;
  timestamp <- time_now ;;
  let debug_info :=
    JObject [ ("address", JString address);
              ("features", features);
              ("original_score", JFloat score);
              ("scaled_score", JInt scaled_score);
              ("credit_tier", JString (tier_of score));
              ("favorable_rate_eligible", JBool (0.5 <? score)%float);
              ("model_weights", JArray (map JFloat model_weights));
              ("timestamp", JInt timestamp) ] in
  let debug_path := path_join output_dir "scaling_debug.json" in
  dump_to debug_path debug_info ;;
  timestamp <- time_now ;;
  let metadata :=
    JObject [ ("address", JString address);
              ("features", features);
              ("score", JFloat score);
              ("scaled_score", JInt scaled_score);
              ("timestamp", JInt timestamp);
              ("model_version", JString "1.0.0") ] in
  let metadata_path := path_join output_dir "metadata.json" in
  dump_to metadata_path metadata.

(** Lines 135-138. *)
Definition farewell (output_dir : string) (generate_model : bool) : M unit :=
  if generate_model
  then print [Text "Model converted to ONNX and input prepared for EZKL in ";
              Text output_dir]
  else print [Text "Input prepared for EZKL in "; Text output_dir].

(** The whole script. *)
Definition script (argv : list string) : M unit :=
  '(output_dir, address, features, generate_model) <- validate argv ;;
  score <- scoring output_dir address features ;;
  export_step output_dir generate_model ;;
  artifacts output_dir address features score ;;
  farewell output_dir generate_model.

Definition run (argv : list string) (w : World) : list event * Z :=
  let '(r, _, l) := script argv w start in (l, exit_status r).

Definition trace (argv : list string) (w : World) : list event :=
  fst (run argv w).

Definition status (argv : list string) (w : World) : Z :=
  snd (run argv w).

End ScriptCreateModel.

(* ===================================================================== *)
(** ** Vocabulary for the statements about run_ezkl.py                    *)
(* ===================================================================== *)

Module RunEzklSpec.
Import Py RunEzkl.

(** All nine stages, in the order the script lists them. *)
Definition registry (args : Namespace) : list (list string * string) :=
  steps args ++ contract_step args.

(** The stages a run with these arguments goes through when nothing fails. *)
Definition pipeline (args : Namespace) : list (list string * string) :=
  steps args ++ (if generate_contract args then contract_step args else []).

(** The token after the executable names the stage. *)
Definition subcommand (cmd : list string) : string := nth 1 cmd "".

Definition returncode_of (a : completed) : option Z :=
  match a with
  | Returned rc _ => Some rc
  | NotStarted => None
  end.

Definition succeeded (a : completed) : bool :=
  match a with
  | Returned rc _ => (rc =? 0)%Z
  | NotStarted => false
  end.

(** An invocation errs when the child cannot be started or returns a code
    other than 0. *)
Definition errs (a : completed) : Prop :=
  a = NotStarted \/ exists rc out, a = Returned rc out /\ rc <> 0%Z.

(** The lines printed, without the children's output. *)
Definition printed_of (e : event) : list (list piece) :=
  match e with
  | Print l => [l]
  | _ => []
  end.

Definition printed (tr : list event) : list (list piece) :=
  flat_map printed_of tr.

(** The log of one turn of the loop of lines 34-39, and of the whole loop. *)
Definition turn (w : World) (d : option string) (st : list string * string)
    : list event :=
  Print [Text (snd st)] :: Spawn d (fst st) false (spawn w (fst st)) ::
  match spawn w (fst st) with
  | Returned rc _ =>
      if (rc =? 0)%Z then [] else [Print [Text (failed_step (fst st))]]
  | NotStarted => []
  end.

Fixpoint loop_log (w : World) (d : option string)
    (l : list (list string * string)) : list event :=
  match l with
  | [] => []
  | st :: rest =>
      turn w d st ++
      (if succeeded (spawn w (fst st)) then loop_log w d rest else [])
  end.

Fixpoint loop_result (w : World) (l : list (list string * string))
    : result unit :=
  match l with
  | [] => Val tt
  | st :: rest =>
      match spawn w (fst st) with
      | NotStarted => Raise OSError
      | Returned rc _ =>
          if (rc =? 0)%Z then loop_result w rest else SystemExit 1
      end
  end.

Definition completion : event := Print [Text "EZKL processing complete!"].

(** The same arguments with another SRS path. *)
Definition with_srs (args : Namespace) (srs : string) : Namespace :=
  {| working_dir := working_dir args;
     model_path := model_path args;
     srs_path := srs;
     generate_contract := generate_contract args |}.

(** The stages whose command takes the SRS. *)
Definition takes_srs (name : string) : bool :=
  existsb (String.eqb name) ["setup"; "prove"; "verify"; "create-evm-verifier"].

(** How the command of one stage answers a change of SRS path from [old] to
    [new]: a stage that takes the SRS ends in [--srs-path <srs>] and changes
    in that last token only; any other stage does not change. *)
Definition srs_bound (old new : string) (cmd cmd' : list string) : Prop :=
  if takes_srs (subcommand cmd)
  then exists front, cmd = front ++ ["--srs-path"; old] /\
                     cmd' = front ++ ["--srs-path"; new]
  else cmd' = cmd.

(** C5 as it is worded: whenever every invocation of a run returns 0, the
    seven (nine with the contract flag) stage commands are invoked after the
    installation check, the status is 0 and the completion line is printed
    last. *)
Definition full_success_as_worded (args : Namespace) (w : World) : Prop :=
  (forall d c cap a, In (Spawn d c cap a) (trace args w) ->
                     exists out, a = Returned 0 out) ->
  invoked (trace args w) = preflight :: map fst (pipeline args) /\
  status args w = 0%Z /\
  exists before, trace args w = before ++ [completion].

(** C8 as it is worded: two runs with the same arguments in worlds that give
    every command the same exit status invoke the same commands and end with
    the same status. *)
Definition determinism_as_worded (args : Namespace) (w1 w2 : World) : Prop :=
  (forall c, returncode_of (spawn w1 c) = returncode_of (spawn w2 c)) ->
  invoked (trace args w1) = invoked (trace args w2) /\
  status args w1 = status args w2.

End RunEzklSpec.

(* ===================================================================== *)
(** ** Vocabulary for the statements about the create_model scripts       *)
(* ===================================================================== *)

Module CreateModelSpec.
Import Py.

(** The paths written through [json.dump], in order. *)
Definition dumped_of (e : event) : list string :=
  match e with
  | Dump path _ => [path]
  | _ => []
  end.

Definition dumped (tr : list event) : list string := flat_map dumped_of tr.

(** The paths [torch.onnx.export] was called on, in order. *)
Definition exported_of (e : event) : list string :=
  match e with
  | Export _ path _ => [path]
  | _ => []
  end.

Definition exported (tr : list event) : list string :=
  flat_map exported_of tr.

(** The features argument is refused: it is not JSON, or it is JSON for
    something other than a list of four elements. *)
Definition refused (w : World) (features : string) : Prop :=
  json_loads w features = None \/
  exists v, json_loads w features = Some v /\
            forall items, v = JArray items -> length items <> 4.

(** The features argument is JSON for a list of four elements. *)
Definition four_items (w : World) (features : string) (items : list json)
    : Prop :=
  json_loads w features = Some (JArray items) /\ length items = 4.

(** The three files every completed run leaves in [output_dir]. *)
Definition artifact_paths (output_dir : string) : list string :=
  [path_join output_dir "input.json";
   path_join output_dir "scaling_debug.json";
   path_join output_dir "metadata.json"].

(** What lines 73-86 of the script variant log when the export succeeds. *)
Definition export_log (output_dir flag : string) : list event :=
  let model_path := path_join output_dir "credit_model.onnx" in
  if flag =? "1"
  then [Print [Text "Generating model file: "; Text model_path];
        Export CreditScoreModel model_path true]
  else [Print [Text "Skipping model generation as per flag"]].

(** What lines 135-138 of the script variant print. *)
Definition closing_line (output_dir flag : string) : event :=
  if flag =? "1"
  then Print [Text "Model converted to ONNX and input prepared for EZKL in ";
              Text output_dir]
  else Print [Text "Input prepared for EZKL in "; Text output_dir].

(** The argument vector of the script variant, by its parts. *)
Definition argv_of (prog output_dir address features flag : string)
    (more : list string) : list string :=
  prog :: output_dir :: address :: features :: flag :: more.

(** C10 as it is worded, for arguments that pass validation: with a flag
    other than "1" the model file is not written and the three JSON files
    are. *)
Definition flag_frame_as_worded (w : World) (argv : list string) : Prop :=
  (5 <= length argv)%nat ->
  (exists items, four_items w (nth 3 argv "") items) ->
  nth 4 argv "" <> "1" ->
  exported (ScriptCreateModel.trace argv w) = [] /\
  dumped (ScriptCreateModel.trace argv w) = artifact_paths (nth 1 argv "").

(** The reading of C10 that only asks the JSON files written not to depend
    on the flag. *)
Definition flag_blind_as_worded (w : World)
    (prog output_dir address features : string) : Prop :=
  forall flag flag',
    dumped (ScriptCreateModel.trace
              (argv_of prog output_dir address features flag []) w) =
    dumped (ScriptCreateModel.trace
              (argv_of prog output_dir address features flag' []) w).

End CreateModelSpec.

(* ===================================================================== *)
(** ** Sample arguments and worlds                                        *)
(* ===================================================================== *)

Module Samples.
Import Py RunEzkl.

Definition sample_args (contract : bool) : Namespace :=
  {| working_dir := "proof_generation";
     model_path := "credit_model.onnx";
     srs_path := "kzg.srs";
     generate_contract := contract |}.

(** The command of the setup stage for [sample_args]. *)
Definition setup_command : list string :=
  ["ezkl"; "setup"; "-M"; "model.compiled"; "--pk-path"; "pk.key";
   "--vk-path"; "vk.key"; "--srs-path"; "kzg.srs"].

(** The command of the first extension stage for [sample_args]. *)
Definition verifier_command : list string :=
  ["ezkl"; "create-evm-verifier"; "--vk-path"; "vk.key"; "--sol-code-path";
   "Halo2Verifier.sol"; "--srs-path"; "kzg.srs"].

(** A JSON string literal. *)
Definition quoted (s : string) : string :=
  String "034"%char s ++ String "034"%char "".

(** JSON texts for the features argument: four numbers, four strings, three
    numbers, and something that is not JSON. *)
Definition four_numbers : string := "[0.5, 0.5, 0.5, 0.5]".

Definition four_strings : string :=
  "[" ++ quoted "a" ++ ", " ++ quoted "b" ++ ", " ++ quoted "c" ++ ", " ++
  quoted "d" ++ "]".

Definition three_numbers : string := "[1, 2, 3]".

Definition not_json : string := "[0.5, 0.5".

Definition is_number (v : json) : bool :=
  match v with
  | JInt _ | JFloat _ | JBool _ => true
  | _ => false
  end.

(** A world in which every child exits with 0 and every system call
    succeeds.  [json.loads] knows the sample texts; torch turns a list of
    numbers into a tensor and refuses anything else, and both networks score
    the features [0.5, 0.5, 0.5, 0.5] at 0.5. *)
Definition calm : World :=
  {| chdir_ok := fun _ => true;
     spawn := fun _ => Returned 0 "";
     json_loads := fun text =>
       if text =? four_numbers
       then Some (JArray [JFloat 0.5; JFloat 0.5; JFloat 0.5; JFloat 0.5])
       else if text =? four_strings
       then Some (JArray [JString "a"; JString "b"; JString "c"; JString "d"])
       else if text =? three_numbers
       then Some (JArray [JInt 1; JInt 2; JInt 3])
       else None;
     torch_score := fun _ v =>
       match v with
       | JArray items => if forallb is_number items then Some 0.5%float
                         else None
       | _ => None
       end;
     export_ok := fun _ _ => true;
     makedirs_ok := fun _ => true;
     open_ok := fun _ => true;
     clock := fun k => (1700000000 + Z.of_nat k)%Z |}.

(** The world [w] with other children and another answer of [os.chdir]. *)
Definition with_children (w : World) (enter : string -> bool)
    (child : list string -> completed) : World :=
  {| chdir_ok := enter;
     spawn := child;
     json_loads := json_loads w;
     torch_score := torch_score w;
     export_ok := export_ok w;
     makedirs_ok := makedirs_ok w;
     open_ok := open_ok w;
     clock := clock w |}.

(** The same children, but the working directory cannot be entered. *)
Definition no_directory : World :=
  with_children calm (fun _ => false) (spawn calm).

(** The same return codes, but the children write to their output. *)
Definition verbose : World :=
  with_children calm (fun _ => true) (fun _ => Returned 0 "done").

(** The stage named [name] exits with [rc]; every other child exits with 0. *)
Definition failing (name : string) (rc : Z) : World :=
  with_children calm (fun _ => true)
    (fun cmd => if nth 1 cmd "" =? name then Returned rc "error"
                else Returned 0 "").

(** No [ezkl] on the PATH. *)
Definition no_tool : World :=
  with_children calm (fun _ => true) (fun _ => NotStarted).

(** As [calm], but the ONNX export raises (the onnx package is missing, or
    the model file cannot be created). *)
Definition no_onnx : World :=
  {| chdir_ok := chdir_ok calm;
     spawn := spawn calm;
     json_loads := json_loads calm;
     torch_score := torch_score calm;
     export_ok := fun _ _ => false;
     makedirs_ok := makedirs_ok calm;
     open_ok := open_ok calm;
     clock := clock calm |}.

(** Argument vectors for the script variant of create_model.py. *)
Definition sample_argv (features flag : string) : list string :=
  ["./script/create_model.py"; "out"; "0xabc"; features; flag].

End Samples.

(* ===================================================================== *)
(** ** Further vocabulary and samples                                     *)
(* ===================================================================== *)

Module MoreSpec.
Import Py RunEzkl RunEzklSpec.

(** The same arguments with another model path. *)
Definition with_model (args : Namespace) (model : string) : Namespace :=
  {| working_dir := working_dir args;
     model_path := model;
     srs_path := srs_path args;
     generate_contract := generate_contract args |}.

(** The stages whose command takes the model file. *)
Definition takes_model (name : string) : bool :=
  existsb (String.eqb name)
          ["gen-settings"; "calibrate-settings"; "compile-circuit"].

(** How the command of one stage answers a change of model path from [old]
    to [new]: a stage that takes the model starts with
    [ezkl <stage> -M <model>] and changes in that fourth token only; any
    other stage does not change. *)
Definition model_bound (old new : string) (cmd cmd' : list string) : Prop :=
  if takes_model (subcommand cmd)
  then exists back, cmd = ["ezkl"; subcommand cmd; "-M"; old] ++ back /\
                    cmd' = ["ezkl"; subcommand cmd; "-M"; new] ++ back
  else cmd' = cmd.

(** The value of a key of a JSON object. *)
Fixpoint lookup (key : string) (fields : list (string * json))
    : option json :=
  match fields with
  | [] => None
  | (k, v) :: rest => if k =? key then Some v else lookup key rest
  end.

Definition field (key : string) (v : json) : option json :=
  match v with
  | JObject fields => lookup key fields
  | _ => None
  end.

(** The paths handed to [open(path, "w")], in order. *)
Definition opened_of (e : event) : list string :=
  match e with
  | OpenW path _ => [path]
  | _ => []
  end.

Definition opened (tr : list event) : list string := flat_map opened_of tr.

(** The events that touch the file system below the output directory. *)
Definition writes (e : event) : bool :=
  match e with
  | Export _ _ _ | OpenW _ _ | Dump _ _ => true
  | _ => false
  end.

(** What a dumped object may say: each of these keys, when the object has
    it, holds the value derived from the address [a], the parsed features
    [v], the score [x] and its scaled integer [z]. *)
Definition derived (a : string) (v : json) (x : float) (z : Z)
    (content : json) : Prop :=
  (forall j, field "address" content = Some j -> j = JString a) /\
  (forall j, field "features" content = Some j -> j = v) /\
  (forall j, field "input_data" content = Some j -> j = JArray [v]) /\
  (forall j, field "output_data" content = Some j ->
             j = JArray [JArray [JFloat x]]) /\
  (forall j, field "score" content = Some j -> j = JFloat x) /\
  (forall j, field "original_score" content = Some j -> j = JFloat x) /\
  (forall j, field "scaled_score" content = Some j -> j = JInt z) /\
  (forall j, field "credit_tier" content = Some j ->
             j = JString (ScriptCreateModel.tier_of x)) /\
  (forall j, field "favorable_rate_eligible" content = Some j ->
             j = JBool (0.5 <? x)%float).

(** What a dumped file does say, by its path: the keys that hold the
    arguments and the scores, each with its value. *)
Definition carries (o a : string) (v : json) (x : float) (z : Z)
    (path : string) (content : json) : Prop :=
  (path = path_join o "input.json" /\
   field "input_data" content = Some (JArray [v]) /\
   field "output_data" content = Some (JArray [JArray [JFloat x]])) \/
  (path = path_join o "scaling_debug.json" /\
   field "address" content = Some (JString a) /\
   field "features" content = Some v /\
   field "original_score" content = Some (JFloat x) /\
   field "scaled_score" content = Some (JInt z) /\
   field "credit_tier" content =
     Some (JString (ScriptCreateModel.tier_of x)) /\
   field "favorable_rate_eligible" content =
     Some (JBool (0.5 <? x)%float)) \/
  (path = path_join o "metadata.json" /\
   field "address" content = Some (JString a) /\
   field "features" content = Some v /\
   field "score" content = Some (JFloat x) /\
   field "scaled_score" content = Some (JInt z)).

(** Whether every [open(path, "w")] and every dump of a log comes after a
    successful export; [seen] says that one has come already. *)
Fixpoint files_follow_export (seen : bool) (tr : list event) : bool :=
  match tr with
  | [] => true
  | Export _ _ true :: rest => files_follow_export true rest
  | (OpenW _ _ | Dump _ _) :: rest => seen && files_follow_export seen rest
  | _ :: rest => files_follow_export seen rest
  end.

(** The child of the stage named [name] cannot be started; every other child
    exits with 0. *)
Definition vanishing (name : string) : World :=
  Samples.with_children Samples.calm (fun _ => true)
    (fun cmd => if nth 1 cmd "" =? name then NotStarted else Returned 0 "").

(** The command of the prove stage for [Samples.sample_args]. *)
Definition prove_command : list string :=
  ["ezkl"; "prove"; "--witness"; "witness.json"; "--proof-path";
   "proof.json"; "--pk-path"; "pk.key"; "--compiled-circuit";
   "model.compiled"; "--srs-path"; "kzg.srs"].

(** What [Samples.calm] makes the script variant dump to
    scaling_debug.json for [Samples.sample_argv Samples.four_numbers]. *)
Definition sample_debug : json :=
  JObject
    [("address", JString "0xabc");
     ("features", JArray [JFloat 0.5; JFloat 0.5; JFloat 0.5; JFloat 0.5]);
     ("original_score", JFloat 0.5);
     ("scaled_score", JInt 500);
     ("credit_tier", JString "MEDIUM");
     ("favorable_rate_eligible", JBool false);
     ("model_weights", JArray (map JFloat ScriptCreateModel.model_weights));
     ("timestamp", JInt 1700000000)].

(** As [Samples.calm], but both networks score any list of numbers at
    [x]. *)
Definition scoring_at (x : float) : World :=
  {| chdir_ok := chdir_ok Samples.calm;
     spawn := spawn Samples.calm;
     json_loads := json_loads Samples.calm;
     torch_score := fun _ v =>
       match v with
       | JArray items => if forallb Samples.is_number items then Some x
                         else None
       | _ => None
       end;
     export_ok := export_ok Samples.calm;
     makedirs_ok := makedirs_ok Samples.calm;
     open_ok := open_ok Samples.calm;
     clock := clock Samples.calm |}.

(** What [scoring_at x] makes the script variant dump to scaling_debug.json
    for [Samples.sample_argv Samples.four_numbers], when [z], [tier] and
    [rate] are the scaled score, the tier and the rate of [x]. *)
Definition debug_at (x : float) (z : Z) (tier : string) (rate : bool)
    : json :=
  JObject
    [("address", JString "0xabc");
     ("features", JArray [JFloat 0.5; JFloat 0.5; JFloat 0.5; JFloat 0.5]);
     ("original_score", JFloat x);
     ("scaled_score", JInt z);
     ("credit_tier", JString tier);
     ("favorable_rate_eligible", JBool rate);
     ("model_weights", JArray (map JFloat ScriptCreateModel.model_weights));
     ("timestamp", JInt 1700000000)].

End MoreSpec.

(* ===================================================================== *)
(** ** run_ezkl.py: the loop                                              *)
(* ===================================================================== *)

Section Loop.
Import Py RunEzkl RunEzklSpec Samples.

Variable w : World.

Local Opaque failed_step.

Lemma invoked_app (a b : list event) :
  invoked (a ++ b) = invoked a ++ invoked b.
Proof. apply flat_map_app. Qed.

Lemma invoked_in (tr : list event) (c : list string) :
  In c (invoked tr) -> exists d cap a, In (Spawn d c cap a) tr.
Proof.
  unfold invoked. rewrite in_flat_map. intros (e & He & Hc).
  destruct e; try destruct Hc as [Hc|Hc]; try destruct Hc.
  eauto.
Qed.

Lemma for_steps_run (l : list (list string * string)) (s : State) :
  for_steps l w s = (loop_result w l, s, loop_log w (cwd s) l).
Proof.
  induction l as [|[cmd msg] rest IH]; [reflexivity|].
  cbn [for_steps loop_log loop_result]. unfold turn. cbn [fst snd].
  unfold bind at 1 2. unfold print_str, print, subprocess_run.
  destruct (spawn w cmd) as [rc out|]; cbn [andb negb app succeeded];
    [|reflexivity].
  destruct (rc =? 0)%Z; cbn [negb].
  - unfold bind, ret. rewrite IH. reflexivity.
  - unfold bind, print_str, print, sys_exit. rewrite app_nil_r. reflexivity.
Qed.

Lemma loop_log_app (d : option string) (l1 l2 : list (list string * string)) :
  loop_log w d (l1 ++ l2) =
  loop_log w d l1 ++
  match loop_result w l1 with
  | Val _ => loop_log w d l2
  | _ => []
  end.
Proof.
  induction l1 as [|[cmd msg] rest IH]; [reflexivity|].
  cbn [app loop_log loop_result fst succeeded].
  destruct (spawn w cmd) as [rc out|]; cbn [succeeded].
  - destruct (rc =? 0)%Z.
    + rewrite IH, <- app_assoc. reflexivity.
    + rewrite !app_nil_r. reflexivity.
  - rewrite !app_nil_r. reflexivity.
Qed.

Lemma loop_result_app (l1 l2 : list (list string * string)) :
  loop_result w (l1 ++ l2) =
  match loop_result w l1 with
  | Val _ => loop_result w l2
  | other => other
  end.
Proof.
  induction l1 as [|[cmd msg] rest IH]; [reflexivity|].
  cbn [app loop_result fst].
  destruct (spawn w cmd) as [rc out|]; [|reflexivity].
  destruct (rc =? 0)%Z; [exact IH | reflexivity].
Qed.

(** Every invocation of the loop is a stage of its list, run in the current
    directory, uncaptured, with the answer the world gives. *)
Lemma loop_log_spawn (d : option string) (l : list (list string * string))
    d' c cap a :
  In (Spawn d' c cap a) (loop_log w d l) ->
  d' = d /\ cap = false /\ a = spawn w c /\ In c (map fst l).
Proof.
  induction l as [|[cmd msg] rest IH]; [intros H; destruct H|].
  cbn [loop_log map fst]. unfold turn. cbn [fst snd]. intros H.
  apply in_app_or in H. destruct H as [H|H].
  - destruct H as [H|[H|H]]; [discriminate| |].
    + injection H as <- <- <- <-. auto 6 with datatypes.
    + destruct (spawn w cmd) as [rc out|]; [|destruct H].
      destruct (rc =? 0)%Z; [destruct H|].
      destruct H as [H|[]]. discriminate.
  - destruct (succeeded (spawn w cmd)); [|destruct H].
    destruct (IH H) as (? & ? & ? & ?). auto 6 with datatypes.
Qed.

(** The commands invoked by the loop are an initial segment of its list. *)
Lemma loop_log_invoked_prefix (d : option string)
    (l : list (list string * string)) :
  exists rest, map fst l = invoked (loop_log w d l) ++ rest.
Proof.
  induction l as [|[cmd msg] tl [rest IH]]; [exists []; reflexivity|].
  cbn [loop_log map fst]. unfold turn. cbn [fst snd].
  rewrite invoked_app.
  destruct (spawn w cmd) as [rc out|]; cbn [succeeded].
  - destruct (rc =? 0)%Z.
    + exists rest. rewrite IH at 1. reflexivity.
    + exists (map fst tl). reflexivity.
  - exists (map fst tl). reflexivity.
Qed.

(** A stage that returns a code other than 0 is the last one invoked: the
    loop stops there, after reporting its command. *)
Lemma loop_log_failure (d : option string) (l : list (list string * string))
    d' c cap rc out :
  In (Spawn d' c cap (Returned rc out)) (loop_log w d l) ->
  rc <> 0%Z ->
  exists l1 msg l2,
    l = l1 ++ (c, msg) :: l2 /\
    loop_result w l = SystemExit 1 /\
    invoked (loop_log w d l) = map fst l1 ++ [c] /\
    exists before,
      loop_log w d l =
      before ++ [Spawn d' c cap (Returned rc out);
                 Print [Text (failed_step c)]].
Proof.
  intros Hin Hrc.
  induction l as [|[cmd msg] rest IH]; [destruct Hin|].
  pose proof (loop_log_spawn _ _ _ _ _ _ Hin) as (-> & -> & Ha & _).
  revert Hin. cbn [loop_log loop_result]. unfold turn. cbn [fst snd].
  destruct (spawn w cmd) as [rc0 out0|] eqn:E; cbn [succeeded].
  - destruct (Z.eqb_spec rc0 0) as [->|Hne].
    + intros [H|[H|H]]; [discriminate| |].
      * injection H as <- ? ?. congruence.
      * destruct (IH H) as (l1 & m & l2 & -> & Hr & Hi & before & Hb).
        exists ((cmd, msg) :: l1), m, l2. repeat split; [exact Hr| |].
        -- rewrite invoked_app, Hi. reflexivity.
        -- exists (Print [Text msg] :: Spawn d cmd false (Returned 0 out0)
                   :: before).
           rewrite Hb. reflexivity.
    + intros [H|[H|[H|[]]]]; try discriminate.
      injection H as <- <- <-.
      exists [], msg, rest. repeat split.
      exists [Print [Text msg]]. rewrite app_nil_r. reflexivity.
  - intros [H|[H|[]]]; discriminate.
Qed.

(** When every invocation of the loop returned 0, the loop went through its
    whole list. *)
Lemma loop_log_all_zero (d : option string) (l : list (list string * string)) :
  (forall d' c cap a, In (Spawn d' c cap a) (loop_log w d l) ->
                      exists out, a = Returned 0 out) ->
  loop_result w l = Val tt /\ invoked (loop_log w d l) = map fst l.
Proof.
  induction l as [|[cmd msg] rest IH]; [split; reflexivity|].
  cbn [loop_log loop_result map fst]. unfold turn. cbn [fst snd]. intros H.
  destruct (H d cmd false (spawn w cmd)) as [out E];
    [right; left; reflexivity|].
  rewrite E in *. cbn [succeeded Z.eqb] in *.
  destruct IH as [Hr Hi].
  - intros d' c cap a Hin. apply (H d' c cap a).
    right. right. exact Hin.
  - split; [exact Hr|]. rewrite invoked_app, Hi. reflexivity.
Qed.

(** A loop that completes has run every stage of its list with code 0. *)
Lemma loop_result_val (d : option string) (l : list (list string * string)) :
  loop_result w l = Val tt ->
  forall c msg, In (c, msg) l ->
  exists out, In (Spawn d c false (Returned 0 out)) (loop_log w d l).
Proof.
  induction l as [|[cmd m] rest IH]; [intros _ ? ? H; destruct H|].
  cbn [loop_log loop_result]. unfold turn. cbn [fst snd].
  destruct (spawn w cmd) as [rc out|] eqn:E; [|discriminate].
  destruct (Z.eqb_spec rc 0) as [->|]; [|discriminate].
  cbn [succeeded Z.eqb]. intros Hr c msg [H|H].
  - injection H as <- <-. exists out. right. left. reflexivity.
  - destruct (IH Hr c msg H) as [o Ho]. exists o. right. right.
    rewrite app_nil_l. exact Ho.
Qed.

End Loop.

(* ===================================================================== *)
(** ** run_ezkl.py: more about the loop                                   *)
(* ===================================================================== *)

Section LoopMore.
Import Py RunEzkl RunEzklSpec Samples MoreSpec.

Variable w : World.

Local Opaque failed_step.

Lemma loop_result_cases (l : list (list string * string)) :
  loop_result w l = Val tt \/ loop_result w l = Raise OSError \/
  loop_result w l = SystemExit 1.
Proof.
  induction l as [|[cmd msg] rest IH]; [left; reflexivity|].
  cbn [loop_result fst].
  destruct (spawn w cmd) as [rc out|]; [|auto].
  destruct (rc =? 0)%Z; auto.
Qed.

(** The loop completes exactly when every stage of its list returns 0. *)
Lemma loop_result_val_iff (l : list (list string * string)) :
  loop_result w l = Val tt <->
  forall c, In c (map fst l) -> exists out, spawn w c = Returned 0 out.
Proof.
  induction l as [|[cmd msg] rest IH]; cbn [loop_result map fst].
  - split; [intros _ c []|reflexivity].
  - split.
    + destruct (spawn w cmd) as [rc out|] eqn:E; [|discriminate].
      destruct (Z.eqb_spec rc 0) as [->|]; [|discriminate].
      intros Hr c [<-|Hc]; [eauto|]. exact (proj1 IH Hr c Hc).
    + intros H. destruct (H cmd (or_introl eq_refl)) as [out ->].
      cbn. apply IH. intros c Hc. apply H. right. exact Hc.
Qed.

(** The lines the loop prints are stage descriptions and failure reports. *)
Lemma loop_log_print (d : option string) (l : list (list string * string))
    (line : list piece) :
  In (Print line) (loop_log w d l) ->
  (exists msg, In msg (map snd l) /\ line = [Text msg]) \/
  (exists c, In c (map fst l) /\ line = [Text (failed_step c)]).
Proof.
  induction l as [|[cmd msg] rest IH]; [intros H; destruct H|].
  cbn [loop_log map fst snd]. unfold turn. cbn [fst snd].
  intros [H|[H|H]]; [|discriminate|].
  - injection H as <-. left. exists msg. split; [left|]; reflexivity.
  - apply in_app_or in H. destruct H as [H|H].
    + destruct (spawn w cmd) as [rc out|]; [|destruct H].
      destruct (rc =? 0)%Z; [destruct H|].
      destruct H as [H|[]]. injection H as <-.
      right. exists cmd. split; [left|]; reflexivity.
    + destruct (succeeded (spawn w cmd)); [|destruct H].
      destruct (IH H) as [(m & Hm & ->)|(c & Hc & ->)].
      * left. exists m. split; [right|]; auto.
      * right. exists c. split; [right|]; auto.
Qed.

(** A stage whose child cannot be started is the last thing in the log of
    the loop, which ends with an [OSError]; the stages before it passed. *)
Lemma loop_log_not_started (d : option string)
    (l : list (list string * string)) d' c cap :
  In (Spawn d' c cap NotStarted) (loop_log w d l) ->
  exists l1 msg l2,
    l = l1 ++ (c, msg) :: l2 /\
    loop_result w l = Raise OSError /\
    loop_result w l1 = Val tt /\
    loop_log w d l =
      loop_log w d l1 ++ [Print [Text msg]; Spawn d' c cap NotStarted].
Proof.
  intros Hin.
  induction l as [|[cmd msg] rest IH]; [destruct Hin|].
  pose proof (loop_log_spawn _ _ _ _ _ _ _ Hin) as (-> & -> & Ha & _).
  revert Hin. cbn [loop_log loop_result]. unfold turn. cbn [fst snd].
  destruct (spawn w cmd) as [rc0 out0|] eqn:E; cbn [succeeded].
  - destruct (Z.eqb_spec rc0 0) as [->|Hne].
    + intros [H|[H|H]]; [discriminate|discriminate|].
      destruct (IH H) as (l1 & m & l2 & -> & Hr & Hv & Hb).
      exists ((cmd, msg) :: l1), m, l2. repeat split; [exact Hr| |].
      * cbn [loop_result fst]. rewrite E. exact Hv.
      * cbn [loop_log]. unfold turn. cbn [fst snd]. rewrite E.
        cbn [succeeded Z.eqb app]. cbn [app] in Hb. rewrite Hb. reflexivity.
    + intros [H|[H|[H|[]]]]; discriminate.
  - intros [H|[H|[]]]; [discriminate|].
    injection H as <-.
    exists [], msg, rest. repeat split.
Qed.

(** While the stages pass, the loop prints no failure report. *)
Lemma loop_log_passed (d : option string) (l : list (list string * string))
    (line : list piece) :
  loop_result w l = Val tt -> In (Print line) (loop_log w d l) ->
  exists msg, In msg (map snd l) /\ line = [Text msg].
Proof.
  induction l as [|[cmd msg] rest IH]; [intros _ H; destruct H|].
  cbn [loop_log loop_result map fst snd]. unfold turn. cbn [fst snd].
  destruct (spawn w cmd) as [rc out|]; [|discriminate]. cbn [succeeded].
  destruct (rc =? 0)%Z; [|discriminate]. cbn [app].
  intros Hr [H|[H|H]]; [|discriminate|].
  - injection H as <-. exists msg. split; [left|]; reflexivity.
  - destruct (IH Hr H) as (m & Hm & ->). exists m. split; [right|]; auto.
Qed.

(** The log of a loop that stops at a stage returning [rc <> 0]. *)
Lemma loop_log_stops (d : option string)
    (passed rest : list (list string * string)) (cmd : list string)
    (msg : string) (rc : Z) (out : string) :
  (forall c, In c (map fst passed) -> exists o, spawn w c = Returned 0 o) ->
  spawn w cmd = Returned rc out -> rc <> 0%Z ->
  loop_result w (passed ++ (cmd, msg) :: rest) = SystemExit 1 /\
  loop_log w d (passed ++ (cmd, msg) :: rest) =
    loop_log w d passed ++
    [Print [Text msg]; Spawn d cmd false (Returned rc out);
     Print [Text (failed_step cmd)]] /\
  invoked (loop_log w d passed) = map fst passed.
Proof.
  intros Hp Hc Hrc.
  assert (Hv : loop_result w passed = Val tt) by (apply loop_result_val_iff; exact Hp).
  rewrite loop_result_app, loop_log_app, Hv.
  cbn [loop_result loop_log fst]. unfold turn. cbn [fst snd].
  rewrite Hc. apply Z.eqb_neq in Hrc. rewrite Hrc. cbn [succeeded].
  rewrite Hrc, app_nil_r. repeat split.
  apply loop_log_all_zero. intros d' c cap a Hin.
  apply loop_log_spawn in Hin. destruct Hin as (_ & _ & -> & Hin).
  exact (Hp c Hin).
Qed.

(** An uncaptured invocation comes right after the line that announces it. *)
Lemma loop_log_announced (d : option string)
    (l : list (list string * string)) before after d' c cap a :
  loop_log w d l = before ++ Spawn d' c cap a :: after ->
  exists earlier msg,
    before = earlier ++ [Print [Text msg]] /\ In (c, msg) l.
Proof.
  revert before. induction l as [|[cmd msg] rest IH]; intros before.
  - destruct before; discriminate.
  - cbn [loop_log]. unfold turn. cbn [fst snd app].
    destruct before as [|e1 [|e2 before]]; cbn [app].
    + discriminate.
    + intros H. injection H as <- _ <- _ _ _.
      exists [], msg. split; [|left]; reflexivity.
    + intros H. injection H as <- <- H.
      assert (Hrest : loop_log w d rest = before ++ Spawn d' c cap a :: after).
      { destruct (spawn w cmd) as [rc out|]; cbn [succeeded] in H.
        - destruct (rc =? 0)%Z; [exact H|].
          destruct before as [|? [|? ?]]; discriminate.
        - destruct before; discriminate. }
      destruct (IH before Hrest) as (earlier & m & -> & Hm).
      exists (Print [Text msg] :: Spawn d cmd false (spawn w cmd) :: earlier), m.
      split; [reflexivity|right; exact Hm].
Qed.

(** While the stages pass, the loop goes on: the stages of [passed] are
    invoked in their order, and then the loop turns to the rest. *)
Lemma loop_log_reaches (d : option string)
    (passed rest : list (list string * string)) :
  (forall c, In c (map fst passed) -> exists o, spawn w c = Returned 0 o) ->
  invoked (loop_log w d (passed ++ rest)) =
  map fst passed ++ invoked (loop_log w d rest).
Proof.
  intros Hp.
  assert (Hv : loop_result w passed = Val tt)
    by (apply loop_result_val_iff; exact Hp).
  rewrite loop_log_app, Hv, invoked_app. f_equal.
  apply loop_log_all_zero. intros d' c cap a Hin.
  apply loop_log_spawn in Hin. destruct Hin as (_ & _ & -> & Hin).
  exact (Hp c Hin).
Qed.

End LoopMore.

(* ===================================================================== *)
(** ** run_ezkl.py: the three ways a run can go                           *)
(* ===================================================================== *)

Section Driver.
Import Py RunEzkl RunEzklSpec Samples.

Variable args : Namespace.
Variable w : World.

Let wd := working_dir args.
Let check := Spawn (Some wd) preflight true (spawn w preflight).

Lemma run_no_directory :
  chdir_ok w wd = false -> run args w = ([Chdir wd false], 1%Z).
Proof.
  intros H. unfold run, main_body, bind at 1 2 3 4, os_chdir. fold wd.
  rewrite H. reflexivity.
Qed.

Lemma run_no_tool :
  chdir_ok w wd = true -> succeeded (spawn w preflight) = false ->
  run args w = ([Chdir wd true; check; Print [Text not_found_message]], 1%Z).
Proof.
  intros H Hp. unfold run, main_body, bind at 1 2 3 4, os_chdir. fold wd.
  rewrite H. unfold try_except_Exception, bind at 1, subprocess_run.
  subst check. cbn [cwd].
  destruct (spawn w preflight) as [rc out|]; cbn in Hp |- *.
  - rewrite Hp. reflexivity.
  - reflexivity.
Qed.

Lemma run_pipeline :
  chdir_ok w wd = true -> succeeded (spawn w preflight) = true ->
  run args w =
  ([Chdir wd true; check] ++ loop_log w (Some wd) (pipeline args) ++
   match loop_result w (pipeline args) with
   | Val _ => [completion]
   | _ => []
   end,
   exit_status (loop_result w (pipeline args))).
Proof.
  intros H Hp. unfold run, main_body, bind at 1 2 3 4, os_chdir. fold wd.
  rewrite H. unfold try_except_Exception, bind at 1, subprocess_run.
  subst check. cbn [cwd].
  destruct (spawn w preflight) as [rc out|]; cbn in Hp; [|discriminate].
  rewrite Hp. cbn [andb negb]. unfold ret at 1. cbn [app].
  unfold pipeline. rewrite loop_log_app, loop_result_app.
  rewrite for_steps_run. cbn [cwd].
  destruct (loop_result w (steps args)) as [[]| |]; cbn [exit_status];
    try (rewrite !app_nil_r; reflexivity).
  destruct (generate_contract args).
  - unfold bind. rewrite for_steps_run. cbn [cwd].
    destruct (loop_result w (contract_step args)) as [[]| |];
      cbn [exit_status]; unfold print_str, print, completion;
      rewrite <- ?app_assoc, ?app_nil_r; reflexivity.
  - unfold bind, ret, print_str, print, completion.
    cbn [loop_log loop_result]. rewrite ?app_nil_r. reflexivity.
Qed.

(** The cases, as one fact to destruct. *)
Lemma run_cases :
  (chdir_ok w wd = false /\ run args w = ([Chdir wd false], 1%Z)) \/
  (chdir_ok w wd = true /\ succeeded (spawn w preflight) = false /\
   run args w =
   ([Chdir wd true; check; Print [Text not_found_message]], 1%Z)) \/
  (chdir_ok w wd = true /\ succeeded (spawn w preflight) = true /\
   run args w =
   ([Chdir wd true; check] ++ loop_log w (Some wd) (pipeline args) ++
    match loop_result w (pipeline args) with
    | Val _ => [completion]
    | _ => []
    end,
    exit_status (loop_result w (pipeline args)))).
Proof.
  destruct (chdir_ok w wd) eqn:H; [|left; auto using run_no_directory].
  right.
  destruct (succeeded (spawn w preflight)) eqn:Hp;
    [right | left]; auto using run_no_tool, run_pipeline.
Qed.

(** Where an invocation found in the log comes from: it is the installation
    check, or it belongs to the loops, which then were reached. *)
Lemma run_spawn (d : option string) (c : list string) (cap : bool)
    (a : completed) :
  In (Spawn d c cap a) (fst (run args w)) ->
  (c = preflight /\ d = Some wd /\ cap = true /\ a = spawn w preflight) \/
  (In (Spawn d c cap a) (loop_log w (Some wd) (pipeline args)) /\
   succeeded (spawn w preflight) = true /\
   run args w =
   ([Chdir wd true; check] ++ loop_log w (Some wd) (pipeline args) ++
    match loop_result w (pipeline args) with
    | Val _ => [completion]
    | _ => []
    end,
    exit_status (loop_result w (pipeline args)))).
Proof.
  destruct run_cases as [[_ E]|[(_ & _ & E)|(_ & Hp & E)]];
    rewrite E; cbn [fst app In]; intros Hin.
  - destruct Hin as [H|[]]. discriminate.
  - destruct Hin as [H|[H|[H|[]]]]; try discriminate.
    injection H as <- <- <- <-. left. auto.
  - destruct Hin as [H|[H|Hin]]; [discriminate| |].
    + injection H as <- <- <- <-. left. auto.
    + right. split; [|split; [exact Hp|reflexivity]].
      apply in_app_or in Hin. destruct Hin as [Hin|Hin]; [exact Hin|].
      exfalso. destruct (loop_result w (pipeline args)); [|destruct Hin..].
      destruct Hin as [H|[]]. discriminate.
Qed.

End Driver.

(* ===================================================================== *)
(** ** run_ezkl.py: the stage lists                                       *)
(* ===================================================================== *)

Section Registry.
Import Py RunEzkl RunEzklSpec Samples.

(** The installation check and the nine stage commands are pairwise
    distinct, whatever the arguments: their second tokens differ. *)
Lemma commands_distinct (args : Namespace) :
  NoDup (preflight :: map fst (registry args)).
Proof.
  apply (NoDup_map_inv subcommand). cbn.
  repeat constructor; cbn; intuition discriminate.
Qed.

Lemma registry_pipeline (args : Namespace) :
  exists extra, registry args = pipeline args ++ extra.
Proof.
  unfold registry, pipeline. destruct (generate_contract args).
  - exists []. rewrite app_nil_r. reflexivity.
  - exists (contract_step args). rewrite app_nil_r. reflexivity.
Qed.

(** In a list without repeated keys, an entry is found at one place only. *)
Lemma split_unique {A B : Type} (a a' b b' : list (A * B)) (x x' : A * B) :
  NoDup (map fst (a ++ x :: b)) ->
  a ++ x :: b = a' ++ x' :: b' -> fst x = fst x' ->
  a = a' /\ b = b'.
Proof.
  revert a'. induction a as [|y a IH]; intros [|y' a'] Hnd E Hx.
  - injection E as _ ->. auto.
  - exfalso. injection E as -> ->. cbn in Hnd.
    apply NoDup_cons_iff in Hnd. apply (proj1 Hnd).
    rewrite map_app, Hx. apply in_or_app. right. left. reflexivity.
  - exfalso. injection E as -> E. cbn in Hnd.
    apply NoDup_cons_iff in Hnd. apply (proj1 Hnd).
    rewrite <- Hx, map_app. apply in_or_app. right. left. reflexivity.
  - injection E as -> E. cbn in Hnd. apply NoDup_cons_iff in Hnd.
    destruct (IH a' (proj2 Hnd) E Hx) as [-> ->]. auto.
Qed.

Lemma nodup_app_disjoint {A : Type} (l l' : list A) (c : A) :
  NoDup (l ++ l') -> In c l -> In c l' -> False.
Proof.
  induction l as [|y l IH]; intros Hnd Hl Hl'; [destruct Hl|].
  cbn in Hnd. apply NoDup_cons_iff in Hnd. destruct Hl as [->|Hl].
  - apply (proj1 Hnd). apply in_or_app. right. exact Hl'.
  - exact (IH (proj2 Hnd) Hl Hl').
Qed.

Lemma later_not_earlier {A : Type} (p : A) (l1 later : list A) (x c : A) :
  NoDup (p :: l1 ++ x :: later) -> In c later -> ~ In c (p :: l1 ++ [x]).
Proof.
  intros Hnd Hc Hin.
  change (p :: l1 ++ x :: later) with ((p :: l1) ++ [x] ++ later) in Hnd.
  rewrite app_assoc in Hnd.
  exact (nodup_app_disjoint _ _ c Hnd Hin Hc).
Qed.

(** When [e] does not occur in [x], a split of [x ++ y] at [e] falls in [y]. *)
Lemma split_after {A : Type} (x y before after : list A) (e : A) :
  x ++ y = before ++ e :: after -> ~ In e x ->
  exists k, before = x ++ k.
Proof.
  revert before. induction x as [|a x IH]; intros before E Hn.
  - exists before. reflexivity.
  - destruct before as [|b before]; injection E as -> E.
    + exfalso. apply Hn. left. reflexivity.
    + destruct (IH before E) as [k ->].
      * intros H. apply Hn. right. exact H.
      * exists k. reflexivity.
Qed.

End Registry.


(* ===================================================================== *)
(** ** run_ezkl.py: the claims                                            *)
(* ===================================================================== *)

Section RunEzklClaims.
Import Py RunEzkl RunEzklSpec Samples.

Local Opaque failed_step.

(** A stage command is never the command of the installation check. *)
Lemma stage_not_preflight (args : Namespace) (c : list string) :
  In c (map fst (registry args)) -> c <> preflight.
Proof.
  intros H ->. pose proof (commands_distinct args) as Hnd.
  apply NoDup_cons_iff in Hnd. exact (proj1 Hnd H).
Qed.

Lemma pipeline_in_registry (args : Namespace) (c : list string) :
  In c (map fst (pipeline args)) -> In c (map fst (registry args)).
Proof.
  destruct (registry_pipeline args) as [extra ->].
  rewrite map_app. intros H. apply in_or_app. left. exact H.
Qed.

(** C1 (fail-fast abort).  Take any stage of the core or of the extension
    list, with the stages listed before it ([earlier]) and after it
    ([later]).  If a run invoked its command and the child returned a code
    other than 0, then no command of [later] is invoked in that run, the log
    ends with that invocation followed by the line "Failed step: " and the
    command's tokens joined by blanks, and the exit status is 1. *)
Theorem fail_fast_abort (args : Namespace) (w : World)
    (earlier later : list (list string * string))
    (cmd : list string) (msg : string)
    (d : option string) (cap : bool) (rc : Z) (out : string) :
  steps args ++ contract_step args = earlier ++ (cmd, msg) :: later ->
  In (Spawn d cmd cap (Returned rc out)) (trace args w) ->
  rc <> 0%Z ->
  (forall c, In c (map fst later) -> ~ In c (invoked (trace args w))) /\
  (exists before,
     trace args w =
     before ++ [Spawn d cmd cap (Returned rc out);
                Print [Text ("Failed step: " ++ join " " cmd)]]) /\
  status args w = 1%Z.
Proof.
  intros Hreg Hin Hrc. fold (registry args) in Hreg.
  assert (Hcmd : cmd <> preflight).
  { apply (stage_not_preflight args). rewrite Hreg, map_app.
    apply in_or_app. right. left. reflexivity. }
  unfold trace, status in *.
  destruct (run_spawn args w _ _ _ _ Hin) as [[H _]|(Hl & _ & E)];
    [contradiction|].
  rewrite E. cbn [fst snd]. clear E Hin.
  destruct (loop_log_failure w _ _ _ _ _ _ _ Hl Hrc)
    as (l1 & m & l2 & Hp & Hr & Hi & before & Hb).
  destruct (registry_pipeline args) as [extra Hx].
  rewrite Hp, <- app_assoc in Hx. cbn [app] in Hx.
  pose proof (commands_distinct args) as Hnd.
  assert (Hnd' := proj2 (proj1 (NoDup_cons_iff _ _) Hnd)).
  rewrite Hx in Hnd'.
  destruct (split_unique _ _ _ _ _ _ Hnd' (eq_trans (eq_sym Hx) Hreg)
              eq_refl) as [<- <-].
  rewrite Hr, app_nil_r. repeat split.
  - intros c Hc. rewrite invoked_app, Hi.
    apply (later_not_earlier preflight (map fst l1) (map fst (l2 ++ extra))
             cmd c); [|exact Hc].
    rewrite Hx, map_app in Hnd. exact Hnd.
  - exists ([Chdir (working_dir args) true;
             Spawn (Some (working_dir args)) preflight true
               (spawn w preflight)] ++ before).
    rewrite Hb, <- app_assoc. reflexivity.
Qed.

(** C2 (core sequence).  The core list names, in this order, the stages
    gen-settings, calibrate-settings, compile-circuit, setup, gen-witness,
    prove and verify, and nothing else.  In every run the commands invoked
    are an initial segment of: the installation check, the core commands in
    their listed order, the extension commands in theirs.  And the stages
    are run: once the working directory is entered and the installation
    check has returned 0, each core stage is invoked as soon as the stages
    listed before it have returned 0, right after them; so when the check and
    the seven core commands return 0, the run invokes the check and then the
    seven core commands, in the listed order, before anything else. *)
Theorem core_sequence_order (args : Namespace) (w : World) :
  map (fun st => subcommand (fst st)) (steps args) =
    ["gen-settings"; "calibrate-settings"; "compile-circuit"; "setup";
     "gen-witness"; "prove"; "verify"] /\
  (exists rest,
     preflight :: map fst (steps args) ++ map fst (contract_step args) =
     invoked (trace args w) ++ rest) /\
  (forall passed cmd msg rest,
     steps args = passed ++ (cmd, msg) :: rest ->
     chdir_ok w (working_dir args) = true ->
     (exists out, spawn w preflight = Returned 0 out) ->
     (forall c, In c (map fst passed) ->
                exists out, spawn w c = Returned 0 out) ->
     exists later,
       invoked (trace args w) = preflight :: map fst passed ++ cmd :: later) /\
  (chdir_ok w (working_dir args) = true ->
   (forall c, In c (preflight :: map fst (steps args)) ->
              exists out, spawn w c = Returned 0 out) ->
   exists later,
     invoked (trace args w) = preflight :: map fst (steps args) ++ later).
Proof.
  split; [reflexivity|]. split; [|split].
  - rewrite <- map_app. fold (registry args). unfold trace.
    destruct (run_cases args w) as [[_ E]|[(_ & _ & E)|(_ & _ & E)]];
      rewrite E; cbn [fst].
    + eexists. reflexivity.
    + eexists. reflexivity.
    + destruct (registry_pipeline args) as [extra ->].
      destruct (loop_log_invoked_prefix w (Some (working_dir args))
                  (pipeline args)) as [rest Hrest].
      exists (rest ++ map fst extra).
      rewrite !invoked_app, map_app, Hrest.
      assert (Ht : invoked
                match loop_result w (pipeline args) with
                | Val _ => [completion]
                | _ => []
                end = []) by (destruct (loop_result w (pipeline args));
                              reflexivity).
      rewrite Ht, app_nil_r, <- app_assoc. reflexivity.
  - intros passed cmd msg rest Hs Hd [o Ho] Hp. unfold trace.
    rewrite (run_pipeline args w Hd) by (rewrite Ho; reflexivity).
    cbn [fst]. rewrite !invoked_app. unfold pipeline.
    rewrite Hs, <- (app_assoc passed),
      (loop_log_reaches w (Some (working_dir args)) passed _ Hp).
    cbn [loop_log]. unfold turn. cbn [fst snd app].
    rewrite <- (app_assoc (map fst passed)).
    unfold invoked at 1 2. cbn [flat_map invoked_of app].
    eexists. reflexivity.
  - intros Hd Hall. unfold trace.
    destruct (Hall preflight (or_introl eq_refl)) as [o Ho].
    rewrite (run_pipeline args w Hd) by (rewrite Ho; reflexivity).
    cbn [fst]. rewrite !invoked_app. unfold pipeline.
    rewrite (loop_log_reaches w (Some (working_dir args)) (steps args) _
               (fun c Hc => Hall c (or_intror Hc))).
    rewrite <- (app_assoc (map fst (steps args))).
    unfold invoked at 1. cbn [flat_map invoked_of app].
    eexists. reflexivity.
Qed.

(** C3 (extension gating).  If a run invokes an extension command, then the
    contract flag is set and, before that invocation, each of the seven core
    commands was invoked and returned 0.  In particular, with the flag unset
    no extension command is invoked, whatever the children answer. *)
Theorem extension_gating (args : Namespace) (w : World) :
  (forall before after d c cap a msg,
     In (c, msg) (contract_step args) ->
     trace args w = before ++ Spawn d c cap a :: after ->
     generate_contract args = true /\
     forall core m, In (core, m) (steps args) ->
       exists out,
         In (Spawn (Some (working_dir args)) core false (Returned 0 out))
            before) /\
  (generate_contract args = false ->
   forall c msg, In (c, msg) (contract_step args) ->
     ~ In c (invoked (trace args w))).
Proof.
  assert (Hext : forall c msg, In (c, msg) (contract_step args) ->
            In c (map fst (registry args)) /\ ~ In c (map fst (steps args))).
  { intros c msg Hc. apply (in_map fst) in Hc. cbn [fst] in Hc.
    unfold registry. rewrite map_app. split.
    - apply in_or_app. right. exact Hc.
    - intros Hs. pose proof (commands_distinct args) as Hnd.
      apply NoDup_cons_iff in Hnd. unfold registry in Hnd.
      rewrite map_app in Hnd.
      exact (nodup_app_disjoint _ _ c (proj2 Hnd) Hs Hc). }
  assert (Hmain : forall before after d c cap a msg,
     In (c, msg) (contract_step args) ->
     trace args w = before ++ Spawn d c cap a :: after ->
     generate_contract args = true /\
     forall core m, In (core, m) (steps args) ->
       exists out,
         In (Spawn (Some (working_dir args)) core false (Returned 0 out))
            before).
  { intros before after d c cap a msg Hc Htr.
    destruct (Hext c msg Hc) as [Hreg Hcore].
    pose proof (stage_not_preflight args c Hreg) as Hpre.
    assert (Hin : In (Spawn d c cap a) (trace args w))
      by (rewrite Htr; apply in_or_app; right; left; reflexivity).
    unfold trace in *.
    destruct (run_spawn args w _ _ _ _ Hin) as [[H _]|(Hl & _ & E)];
      [contradiction|].
    rewrite E in Htr. cbn [fst] in Htr. clear E Hin.
    unfold pipeline in Htr, Hl.
    destruct (generate_contract args).
    2:{ exfalso. rewrite app_nil_r in Hl.
        apply loop_log_spawn in Hl. tauto. }
    split; [reflexivity|].
    rewrite loop_log_app, loop_result_app in Htr.
    rewrite <- app_assoc, app_assoc in Htr.
    destruct (split_after _ _ _ _ _ Htr) as [k ->].
    - cbn [app In]. intros [H|[H|Hs]]; [discriminate| |].
      + injection H as _ H _ _. congruence.
      + apply loop_log_spawn in Hs. tauto.
    - destruct (loop_result w (steps args)) as [[]| |] eqn:Hr.
      + intros core m Hm.
        destruct (loop_result_val w (Some (working_dir args)) _ Hr core m Hm)
          as [out Ho].
        exists out. apply in_or_app. left. right. right. exact Ho.
      + exfalso. rewrite <- !app_assoc in Htr.
        do 2 apply app_inv_head in Htr. destruct k; discriminate.
      + exfalso. rewrite <- !app_assoc in Htr.
        do 2 apply app_inv_head in Htr. destruct k; discriminate. }
  split; [exact Hmain|].
  intros Hflag c msg Hc Hin.
  apply invoked_in in Hin. destruct Hin as (d & cap & a & He).
  apply in_split in He. destruct He as (before & after & He).
  destruct (Hmain before after _ _ _ _ msg Hc He) as [Hf _]. congruence.
Qed.

(** C4 (preflight failure).  If the installation check of a run errs -- the
    child cannot be started, or returns a code other than 0 -- then it is the
    only command invoked, it was run with its output captured, the console
    shows the installation advice and nothing else, and the exit status is
    1. *)
Theorem preflight_failure (args : Namespace) (w : World)
    (d : option string) (cap : bool) (a : completed) :
  In (Spawn d preflight cap a) (trace args w) ->
  errs a ->
  invoked (trace args w) = [preflight] /\
  cap = true /\
  console (trace args w) =
    [Line [Text "EZKL not found. Please install it with: pip install ezkl"]] /\
  status args w = 1%Z.
Proof.
  intros Hin Herr. unfold trace, status in *.
  destruct (run_spawn args w _ _ _ _ Hin) as [(_ & _ & -> & ->)|(Hl & _ & _)].
  - assert (Hp : succeeded (spawn w preflight) = false).
    { destruct Herr as [->|(rc & out & -> & Hrc)]; [reflexivity|].
      apply Z.eqb_neq. exact Hrc. }
    destruct (run_cases args w) as [[_ E]|[(_ & _ & E)|(_ & Hp' & E)]];
      [rewrite E in Hin; destruct Hin as [H|[]]; discriminate
      | | congruence].
    rewrite E. cbn [fst snd]. repeat split.
  - exfalso. apply loop_log_spawn in Hl. destruct Hl as (_ & _ & _ & Hl).
    apply pipeline_in_registry in Hl.
    exact (stage_not_preflight args _ Hl eq_refl).
Qed.


(** C5 as worded fails: with a tool that exits with 0 whenever it is run but
    a working directory that cannot be entered, no invocation returns
    anything but 0 (none takes place), yet no stage is invoked and the exit
    status is 1. *)
Lemma full_success_needs_directory :
  (forall c, spawn no_directory c = Returned 0 "") /\
  trace (sample_args false) no_directory = [Chdir "proof_generation" false] /\
  status (sample_args false) no_directory = 1%Z /\
  ~ full_success_as_worded (sample_args false) no_directory.
Proof.
  split; [reflexivity|]. split; [reflexivity|]. split; [reflexivity|].
  intros H. destruct H as (Hi & _).
  - intros d c cap a [E|[]]. discriminate.
  - discriminate.
Qed.

(** C5 (full success), amended: in every run that enters the working
    directory and in which every invocation returns 0, the commands invoked
    are the installation check, then the seven core commands in order, then
    -- exactly when the contract flag is set -- the two extension commands;
    the exit status is 0 and the last thing logged is the completion line. *)
Theorem full_success (args : Namespace) (w : World) :
  In (Chdir (working_dir args) true) (trace args w) ->
  (forall d c cap a, In (Spawn d c cap a) (trace args w) ->
                     exists out, a = Returned 0 out) ->
  invoked (trace args w) =
    preflight :: map fst (steps args) ++
    (if generate_contract args then map fst (contract_step args) else []) /\
  length (steps args) = 7 /\
  length (contract_step args) = 2 /\
  status args w = 0%Z /\
  exists before,
    trace args w = before ++ [Print [Text "EZKL processing complete!"]].
Proof.
  intros Hdir Hall. unfold trace, status in *.
  destruct (run_cases args w) as [[_ E]|[(_ & Hp & E)|(_ & _ & E)]];
    rewrite E in *; cbn [fst snd] in *.
  - destruct Hdir as [H|[]]. discriminate.
  - exfalso.
    destruct (Hall _ _ _ _ (or_intror (or_introl eq_refl))) as [out Ha].
    rewrite Ha in Hp. discriminate.
  - destruct (loop_log_all_zero w (Some (working_dir args)) (pipeline args))
      as [Hr Hi].
    { intros d c cap a Hin. apply (Hall d c cap a).
      cbn [app In]. right. right. apply in_or_app. left. exact Hin. }
    rewrite Hr. rewrite !invoked_app, Hi. cbn [exit_status].
    repeat split.
    + unfold pipeline. rewrite map_app.
      destruct (generate_contract args); reflexivity.
    + exists ([Chdir (working_dir args) true;
               Spawn (Some (working_dir args)) preflight true
                 (spawn w preflight)] ++
              loop_log w (Some (working_dir args)) (pipeline args)).
      rewrite <- app_assoc. reflexivity.
Qed.

(** C6 (SRS parameterization).  Change the SRS path of the arguments and
    compare the nine commands stage by stage: the commands of setup, prove,
    verify and create-evm-verifier end in [--srs-path <srs>] and change in
    that last token only; the commands of all other stages do not change.
    Those four are the only stages taking the SRS; the calldata stage
    (encode-evm-calldata) is not among them. *)
Theorem srs_parameterization (args : Namespace) (srs : string) :
  Forall2 (srs_bound (srs_path args) srs)
          (map fst (steps args ++ contract_step args))
          (map fst (steps (with_srs args srs) ++
                    contract_step (with_srs args srs))) /\
  filter takes_srs
         (map (fun st => subcommand (fst st))
              (steps args ++ contract_step args)) =
    ["setup"; "prove"; "verify"; "create-evm-verifier"] /\
  (exists front msg,
     nth_error (contract_step args) 1 =
       Some ("ezkl" :: "encode-evm-calldata" :: front, msg) /\
     nth_error (contract_step (with_srs args srs)) 1 =
       Some ("ezkl" :: "encode-evm-calldata" :: front, msg)).
Proof.
  split; [|split; [reflexivity|]].
  - cbn [steps contract_step app map fst with_srs srs_path model_path].
    repeat (apply Forall2_cons; [|]); try apply Forall2_nil;
      unfold srs_bound;
      match goal with
      | |- context [takes_srs ?n] =>
          let b := eval vm_compute in (takes_srs n) in
          change (takes_srs n) with b; cbv iota
      end;
      try reflexivity;
      match goal with
      | |- exists front, ?c = _ /\ _ =>
          exists (removelast (removelast c)); split; reflexivity
      end.
  - eexists. eexists. split; reflexivity.
Qed.

(** C7 (execution context).  Every run starts by entering the configured
    working directory and does not change directory again; every command it
    invokes runs in that directory; and when the directory cannot be
    entered, nothing is invoked and the exit status is 1. *)
Theorem execution_context (args : Namespace) (w : World) :
  (exists rest,
     trace args w =
       Chdir (working_dir args) (chdir_ok w (working_dir args)) :: rest /\
     forall p b, ~ In (Chdir p b) rest) /\
  (forall d c cap a, In (Spawn d c cap a) (trace args w) ->
     d = Some (working_dir args) /\ chdir_ok w (working_dir args) = true) /\
  (chdir_ok w (working_dir args) = false ->
   invoked (trace args w) = [] /\ status args w = 1%Z).
Proof.
  unfold trace, status.
  destruct (run_cases args w) as [[Hd E]|[(Hd & _ & E)|(Hd & _ & E)]];
    rewrite E, Hd; cbn [fst snd app]; (split; [|split]);
    try (intros; discriminate).
  - exists []. split; [reflexivity|]. intros p b [].
  - intros d c cap a [H|[]]. discriminate.
  - intros _. split; reflexivity.
  - eexists. split; [reflexivity|].
    intros p b [H|[H|[]]]; discriminate.
  - intros d c cap a [H|[H|[H|[]]]]; try discriminate.
    injection H as <- _ _ _. auto.
  - eexists. split; [reflexivity|].
    intros p b [H|Hin]; [discriminate|].
    apply in_app_or in Hin. destruct Hin as [Hin|Hin].
    + clear E. induction (pipeline args) as [|[cmd msg] l IH];
        [destruct Hin|].
      cbn [loop_log] in Hin. unfold turn in Hin. cbn [fst snd] in Hin.
      destruct Hin as [H|[H|Hin]]; try discriminate.
      apply in_app_or in Hin. destruct Hin as [Hin|Hin].
      * destruct (spawn w cmd) as [rc out|]; [|destruct Hin].
        destruct (rc =? 0)%Z; [destruct Hin|].
        destruct Hin as [H|[]]. discriminate.
      * destruct (succeeded (spawn w cmd)); [auto|destruct Hin].
    + destruct (loop_result w (pipeline args)); [|destruct Hin..].
      destruct Hin as [H|[]]. discriminate.
  - intros d c cap a [H|[H|Hin]]; [discriminate| |].
    + injection H as <- _ _ _. auto.
    + apply in_app_or in Hin. destruct Hin as [Hin|Hin].
      * apply loop_log_spawn in Hin. destruct Hin as [-> _]. auto.
      * destruct (loop_result w (pipeline args)); [|destruct Hin..].
        destruct Hin as [H|[]]. discriminate.
Qed.

(** What the loop does depends on the return codes only. *)
Lemma loop_same_codes (w1 w2 : World) (d : option string)
    (l : list (list string * string)) :
  (forall c, returncode_of (spawn w1 c) = returncode_of (spawn w2 c)) ->
  loop_result w1 l = loop_result w2 l /\
  invoked (loop_log w1 d l) = invoked (loop_log w2 d l) /\
  printed (loop_log w1 d l) = printed (loop_log w2 d l).
Proof.
  intros H. induction l as [|[cmd msg] rest (IHr & IHi & IHp)];
    [repeat split|].
  cbn [loop_log loop_result]. unfold turn. cbn [fst snd].
  specialize (H cmd).
  destruct (spawn w1 cmd) as [rc1 o1|], (spawn w2 cmd) as [rc2 o2|];
    try discriminate; [|repeat split].
  injection H as <-. cbn [succeeded].
  destruct (rc1 =? 0)%Z; [|repeat split].
  unfold invoked, printed in *. cbn. rewrite IHi, IHp. auto.
Qed.

(** C8 as worded fails: the same arguments, the same exit status for every
    command, and yet one run invokes eight commands and ends with 0 while the
    other invokes none and ends with 1 -- the working directory is there for
    the first run and not for the second. *)
Lemma determinism_needs_directory :
  ~ determinism_as_worded (sample_args false) calm no_directory.
Proof.
  intros H. destruct H as [_ H]; [reflexivity | discriminate].
Qed.

(** C8 (determinism), amended: two runs with the same arguments, in worlds
    where entering the working directory has the same outcome and every
    command has the same result (the same return code, or no start in both),
    invoke the same commands in the same order, print the same lines and end
    with the same exit status. *)
Theorem determinism (args : Namespace) (w1 w2 : World) :
  chdir_ok w1 (working_dir args) = chdir_ok w2 (working_dir args) ->
  (forall c, returncode_of (spawn w1 c) = returncode_of (spawn w2 c)) ->
  invoked (trace args w1) = invoked (trace args w2) /\
  printed (trace args w1) = printed (trace args w2) /\
  status args w1 = status args w2.
Proof.
  intros Hd Hc. unfold trace, status.
  assert (Hs : succeeded (spawn w1 preflight) = succeeded (spawn w2 preflight)).
  { specialize (Hc preflight).
    destruct (spawn w1 preflight), (spawn w2 preflight); try discriminate;
      [injection Hc as <-|]; reflexivity. }
  destruct (loop_same_codes w1 w2 (Some (working_dir args)) (pipeline args) Hc)
    as (Hr & Hi & Hp).
  destruct (run_cases args w1) as [[H1 E1]|[(H1 & P1 & E1)|(H1 & P1 & E1)]];
    destruct (run_cases args w2) as [[H2 E2]|[(H2 & P2 & E2)|(H2 & P2 & E2)]];
    try congruence; rewrite E1, E2; cbn [fst snd]; [repeat split.. |].
  unfold invoked, printed in *. rewrite !flat_map_app, Hi, Hp, Hr.
  repeat split.
Qed.

End RunEzklClaims.

Section RunEzklWitnesses.
Import Py RunEzkl RunEzklSpec Samples.

(** Closes a goal [In x l] for a list [l] that computes. *)
Ltac found := vm_compute; repeat first [left; reflexivity | right].

(** The commands of three concrete runs, by their stage names. *)
Example calm_run_with_contract :
  map subcommand (invoked (trace (sample_args true) calm)) =
    ["--help"; "gen-settings"; "calibrate-settings"; "compile-circuit";
     "setup"; "gen-witness"; "prove"; "verify"; "create-evm-verifier";
     "encode-evm-calldata"] /\
  status (sample_args true) calm = 0%Z.
Proof. split; reflexivity. Qed.

Example calm_run_without_contract :
  map subcommand (invoked (trace (sample_args false) calm)) =
    ["--help"; "gen-settings"; "calibrate-settings"; "compile-circuit";
     "setup"; "gen-witness"; "prove"; "verify"] /\
  status (sample_args false) calm = 0%Z.
Proof. split; reflexivity. Qed.

Example setup_failure_run :
  map subcommand (invoked (trace (sample_args true) (failing "setup" 1))) =
    ["--help"; "gen-settings"; "calibrate-settings"; "compile-circuit";
     "setup"] /\
  console (trace (sample_args true) (failing "setup" 1)) =
    [Line [Text "Generating circuit settings..."];
     ChildOutput (fst (nth 0 (steps (sample_args true)) ([], ""))) "";
     Line [Text "Calibrating settings..."];
     ChildOutput (fst (nth 1 (steps (sample_args true)) ([], ""))) "";
     Line [Text "Compiling model to circuit..."];
     ChildOutput (fst (nth 2 (steps (sample_args true)) ([], ""))) "";
     Line [Text "Running setup to generate keys..."];
     ChildOutput setup_command "error";
     Line [Text "Failed step: ezkl setup -M model.compiled --pk-path pk.key --vk-path vk.key --srs-path kzg.srs"]] /\
  status (sample_args true) (failing "setup" 1) = 1%Z.
Proof. repeat split. Qed.

Lemma fail_fast_abort_witness :
  In (Spawn (Some "proof_generation") setup_command false
        (Returned 1 "error"))
     (trace (sample_args true) (failing "setup" 1)) /\
  (forall c,
     In c (map fst (skipn 4 (steps (sample_args true)) ++
                    contract_step (sample_args true))) ->
     ~ In c (invoked (trace (sample_args true) (failing "setup" 1)))) /\
  (exists before,
     trace (sample_args true) (failing "setup" 1) =
     before ++ [Spawn (Some "proof_generation") setup_command false
                  (Returned 1 "error");
                Print [Text ("Failed step: " ++ join " " setup_command)]]) /\
  status (sample_args true) (failing "setup" 1) = 1%Z.
Proof.
  split; [found|].
  apply (fail_fast_abort (sample_args true) (failing "setup" 1)
           (firstn 3 (steps (sample_args true)))
           (skipn 4 (steps (sample_args true)) ++
            contract_step (sample_args true))
           setup_command "Running setup to generate keys...").
  - reflexivity.
  - found.
  - discriminate.
Defined.

Lemma core_sequence_order_witness :
  (exists later,
     invoked (trace (sample_args true) calm) =
     preflight :: map fst (steps (sample_args true)) ++ later) /\
  (exists later,
     invoked (trace (sample_args true) (failing "setup" 1)) =
     preflight :: map fst (firstn 3 (steps (sample_args true))) ++
     setup_command :: later).
Proof.
  split.
  - apply (proj2 (proj2 (proj2 (core_sequence_order (sample_args true)
                                  calm)))).
    + reflexivity.
    + intros c _. exists "". reflexivity.
  - apply (proj1 (proj2 (proj2 (core_sequence_order (sample_args true)
                                  (failing "setup" 1))))
             (firstn 3 (steps (sample_args true))) setup_command
             "Running setup to generate keys..."
             (skipn 4 (steps (sample_args true)))).
    + reflexivity.
    + reflexivity.
    + exists "". reflexivity.
    + intros c Hc. exists "".
      destruct Hc as [<-|[<-|[<-|[]]]]; reflexivity.
Defined.

Lemma extension_gating_witness :
  trace (sample_args true) calm =
    firstn 17 (trace (sample_args true) calm) ++
    Spawn (Some "proof_generation") verifier_command false (Returned 0 "") ::
    skipn 18 (trace (sample_args true) calm) /\
  generate_contract (sample_args true) = true /\
  forall core m, In (core, m) (steps (sample_args true)) ->
    exists out,
      In (Spawn (Some "proof_generation") core false (Returned 0 out))
         (firstn 17 (trace (sample_args true) calm)).
Proof.
  split; [reflexivity|].
  apply (proj1 (extension_gating (sample_args true) calm)
           (firstn 17 (trace (sample_args true) calm))
           (skipn 18 (trace (sample_args true) calm))
           (Some "proof_generation") verifier_command false (Returned 0 "")
           "Generating Solidity verifier contract...").
  - left. reflexivity.
  - reflexivity.
Defined.

Lemma preflight_failure_witness :
  In (Spawn (Some "proof_generation") preflight true NotStarted)
     (trace (sample_args true) no_tool) /\
  errs NotStarted /\
  invoked (trace (sample_args true) no_tool) = [preflight] /\
  true = true /\
  console (trace (sample_args true) no_tool) =
    [Line [Text "EZKL not found. Please install it with: pip install ezkl"]] /\
  status (sample_args true) no_tool = 1%Z.
Proof.
  split; [found|]. split; [left; reflexivity|].
  apply (preflight_failure (sample_args true) no_tool
           (Some "proof_generation") true NotStarted).
  - found.
  - left. reflexivity.
Defined.

Lemma full_success_witness :
  In (Chdir "proof_generation" true) (trace (sample_args true) calm) /\
  invoked (trace (sample_args true) calm) =
    preflight :: map fst (steps (sample_args true)) ++
    map fst (contract_step (sample_args true)) /\
  length (steps (sample_args true)) = 7 /\
  length (contract_step (sample_args true)) = 2 /\
  status (sample_args true) calm = 0%Z /\
  exists before,
    trace (sample_args true) calm =
    before ++ [Print [Text "EZKL processing complete!"]].
Proof.
  split; [found|].
  apply (full_success (sample_args true) calm).
  - found.
  - intros d c cap a H. vm_compute in H.
    repeat match goal with
           | H : _ \/ _ |- _ => destruct H as [H|H]
           end;
      try discriminate H; try contradiction;
      injection H as _ _ _ <-; eexists; reflexivity.
Defined.

Lemma execution_context_witness :
  chdir_ok no_directory (working_dir (sample_args true)) = false /\
  invoked (trace (sample_args true) no_directory) = [] /\
  status (sample_args true) no_directory = 1%Z.
Proof.
  split; [reflexivity|].
  apply (proj2 (proj2 (execution_context (sample_args true) no_directory))).
  reflexivity.
Defined.

Lemma determinism_witness :
  trace (sample_args true) calm <> trace (sample_args true) verbose /\
  invoked (trace (sample_args true) calm) =
    invoked (trace (sample_args true) verbose) /\
  printed (trace (sample_args true) calm) =
    printed (trace (sample_args true) verbose) /\
  status (sample_args true) calm = status (sample_args true) verbose.
Proof.
  split; [discriminate|].
  apply (determinism (sample_args true) calm verbose).
  - reflexivity.
  - intros c. reflexivity.
Defined.

End RunEzklWitnesses.

(* ===================================================================== *)
(** ** The create_model scripts: validation                               *)
(* ===================================================================== *)

Section Validation.
Import Py CreateModelSpec Samples.

Variable w : World.

(** The three ways the [try] block of the validation can go, by what
    [json.loads] answers. *)
Lemma script_validate_refused (argv : list string) (s : State) :
  (5 <= length argv)%nat -> refused w (nth 3 argv "") ->
  exists line,
    ScriptCreateModel.validate argv w s = (SystemExit 1, s, [Print line]).
Proof.
  intros Hlen Href. unfold ScriptCreateModel.validate.
  destruct (Nat.ltb_spec (length argv) 5) as [|_]; [lia|].
  unfold try_except_decode_value, bind, loads, raise, ret, print_str, print,
    sys_exit.
  destruct Href as [E|(v & E & Hv)]; rewrite E.
  - eexists. reflexivity.
  - destruct v; try (eexists; reflexivity).
    destruct (Nat.eqb_spec (length items) 4) as [H4|_].
    + destruct (Hv items eq_refl H4).
    + eexists. reflexivity.
Qed.

Lemma script_validate_accepted (argv : list string) (s : State)
    (items : list json) :
  (5 <= length argv)%nat -> four_items w (nth 3 argv "") items ->
  ScriptCreateModel.validate argv w s =
  (Val (nth 1 argv "", nth 2 argv "", JArray items, nth 4 argv "" =? "1"),
   s, []).
Proof.
  intros Hlen [E H4]. unfold ScriptCreateModel.validate.
  destruct (Nat.ltb_spec (length argv) 5) as [|_]; [lia|].
  unfold try_except_decode_value, bind, loads, raise, ret.
  rewrite E, H4. reflexivity.
Qed.

Lemma root_validate_refused (argv : list string) (s : State) :
  (4 <= length argv)%nat -> refused w (nth 3 argv "") ->
  exists line, CreateModel.validate argv w s = (SystemExit 1, s, [Print line]).
Proof.
  intros Hlen Href. unfold CreateModel.validate.
  destruct (Nat.ltb_spec (length argv) 4) as [|_]; [lia|].
  unfold try_except_decode_value, bind, loads, raise, ret, print_str, print,
    sys_exit.
  destruct Href as [E|(v & E & Hv)]; rewrite E.
  - eexists. reflexivity.
  - destruct v; try (eexists; reflexivity).
    destruct (Nat.eqb_spec (length items) 4) as [H4|_].
    + destruct (Hv items eq_refl H4).
    + eexists. reflexivity.
Qed.

Lemma root_validate_accepted (argv : list string) (s : State)
    (items : list json) :
  (4 <= length argv)%nat -> four_items w (nth 3 argv "") items ->
  CreateModel.validate argv w s =
  (Val (nth 1 argv "", nth 2 argv "", JArray items), s, []).
Proof.
  intros Hlen [E H4]. unfold CreateModel.validate.
  destruct (Nat.ltb_spec (length argv) 4) as [|_]; [lia|].
  unfold try_except_decode_value, bind, loads, raise, ret.
  rewrite E, H4. reflexivity.
Qed.

(** Past the validation, the first thing either script does is to create the
    output directory. *)
Lemma script_scoring_starts (o a : string) (v : json) (s : State) :
  exists r s' rest,
    ScriptCreateModel.scoring o a v w s =
    (r, s', Makedirs o (makedirs_ok w o) :: rest).
Proof.
  unfold ScriptCreateModel.scoring, bind, os_makedirs.
  destruct (makedirs_ok w o); [|eauto].
  destruct (score_of CreditScoreModel v w s) as [[[x| |] s1] l1];
    cbn; eauto.
Qed.

Lemma root_scoring_starts (o a : string) (v : json) (s : State) :
  exists r s' rest,
    CreateModel.scoring o a v w s =
    (r, s', Makedirs o (makedirs_ok w o) :: rest).
Proof.
  unfold CreateModel.scoring, bind, os_makedirs.
  destruct (makedirs_ok w o); [|eauto].
  destruct (score_of LinearCreditScoreModel v w s) as [[[x| |] s1] l1];
    cbn; eauto.
Qed.

Lemma root_run_refused (argv : list string) :
  (length argv < 4)%nat \/ refused w (nth 3 argv "") ->
  exists lines,
    lines <> [] /\ CreateModel.run argv w = (map Print lines, 1%Z).
Proof.
  intros H. unfold CreateModel.run, CreateModel.script, bind at 1.
  destruct (Nat.ltb_spec (length argv) 4) as [Hlt|Hge].
  - unfold CreateModel.validate.
    destruct (Nat.ltb_spec (length argv) 4) as [_|]; [|lia].
    eexists [_]. split; [discriminate|]. reflexivity.
  - destruct H as [H|H]; [lia|].
    destruct (root_validate_refused argv start Hge H) as [line ->].
    exists [line]. split; [discriminate|]. reflexivity.
Qed.

Lemma script_run_refused (argv : list string) :
  (length argv < 5)%nat \/ refused w (nth 3 argv "") ->
  exists lines,
    lines <> [] /\ ScriptCreateModel.run argv w = (map Print lines, 1%Z).
Proof.
  intros H. unfold ScriptCreateModel.run, ScriptCreateModel.script, bind at 1.
  destruct (Nat.ltb_spec (length argv) 5) as [Hlt|Hge].
  - unfold ScriptCreateModel.validate.
    destruct (Nat.ltb_spec (length argv) 5) as [_|]; [|lia].
    eexists [_; _]. split; [discriminate|]. reflexivity.
  - destruct H as [H|H]; [lia|].
    destruct (script_validate_refused argv start Hge H) as [line ->].
    exists [line]. split; [discriminate|]. reflexivity.
Qed.

Lemma root_run_accepted (argv : list string) (items : list json) :
  (4 <= length argv)%nat -> four_items w (nth 3 argv "") items ->
  exists done rest,
    CreateModel.trace argv w = Makedirs (nth 1 argv "") done :: rest.
Proof.
  intros Hlen Hit.
  unfold CreateModel.trace, CreateModel.run, CreateModel.script, bind at 1.
  rewrite (root_validate_accepted argv start items Hlen Hit).
  unfold bind at 1.
  destruct (root_scoring_starts (nth 1 argv "") (nth 2 argv "")
              (JArray items) start) as (r & s' & rest & ->).
  destruct r as [x| |]; cbn [app]; [|cbn; eauto..].
  match goal with
  | |- context [bind ?m ?k w s'] => destruct (bind m k w s') as [[r2 s2] l2]
  end.
  cbn. eauto.
Qed.

Lemma script_run_accepted (argv : list string) (items : list json) :
  (5 <= length argv)%nat -> four_items w (nth 3 argv "") items ->
  exists done rest,
    ScriptCreateModel.trace argv w = Makedirs (nth 1 argv "") done :: rest.
Proof.
  intros Hlen Hit.
  unfold ScriptCreateModel.trace, ScriptCreateModel.run,
    ScriptCreateModel.script, bind at 1.
  rewrite (script_validate_accepted argv start items Hlen Hit).
  unfold bind at 1.
  destruct (script_scoring_starts (nth 1 argv "") (nth 2 argv "")
              (JArray items) start) as (r & s' & rest & ->).
  destruct r as [x| |]; cbn [app]; [|cbn; eauto..].
  match goal with
  | |- context [bind ?m ?k w s'] => destruct (bind m k w s') as [[r2 s2] l2]
  end.
  cbn. eauto.
Qed.

End Validation.

Section ValidationClaim.
Import Py CreateModelSpec Samples.

(** C9 (argument validation).  [src/ezkl/create_model.py] wants at least
    three arguments after the script name, [src/ezkl/script/create_model.py]
    at least four.  In both: when there are too few arguments, or the
    features argument is refused (not JSON, or JSON for something other than
    a list of four elements), the run prints at least one line, does nothing
    else -- no directory is created, no file opened, written or exported --
    and ends with status 1.  Conversely, when there are enough arguments and
    the features argument is JSON for a list of four elements, whatever the
    elements are, validation returns the arguments without printing and the
    run goes on to create the output directory. *)
Theorem argument_validation (w : World) (argv : list string) :
  (((length argv < 4)%nat \/ refused w (nth 3 argv "")) ->
   CreateModel.status argv w = 1%Z /\
   exists lines, lines <> [] /\ CreateModel.trace argv w = map Print lines) /\
  (((length argv < 5)%nat \/ refused w (nth 3 argv "")) ->
   ScriptCreateModel.status argv w = 1%Z /\
   exists lines,
     lines <> [] /\ ScriptCreateModel.trace argv w = map Print lines) /\
  (forall items, four_items w (nth 3 argv "") items ->
     ((4 <= length argv)%nat ->
      CreateModel.validate argv w start =
        (Val (nth 1 argv "", nth 2 argv "", JArray items), start, []) /\
      exists done rest,
        CreateModel.trace argv w = Makedirs (nth 1 argv "") done :: rest) /\
     ((5 <= length argv)%nat ->
      ScriptCreateModel.validate argv w start =
        (Val (nth 1 argv "", nth 2 argv "", JArray items,
              nth 4 argv "" =? "1"), start, []) /\
      exists done rest,
        ScriptCreateModel.trace argv w =
        Makedirs (nth 1 argv "") done :: rest)).
Proof.
  split; [|split].
  - intros H.
    destruct (root_run_refused w argv H) as (lines & Hne & E).
    unfold CreateModel.status, CreateModel.trace. rewrite E. eauto.
  - intros H.
    destruct (script_run_refused w argv H) as (lines & Hne & E).
    unfold ScriptCreateModel.status, ScriptCreateModel.trace. rewrite E. eauto.
  - intros items Hit. split; intros Hlen.
    + split; [exact (root_validate_accepted w argv start items Hlen Hit)|].
      exact (root_run_accepted w argv items Hlen Hit).
    + split; [exact (script_validate_accepted w argv start items Hlen Hit)|].
      exact (script_run_accepted w argv items Hlen Hit).
Qed.

End ValidationClaim.

(* ===================================================================== *)
(** ** script/create_model.py: the model-generation flag                  *)
(* ===================================================================== *)

Section Blocks.
Import Py CreateModelSpec Samples ScriptCreateModel.

Variable w : World.

(** Lines 30-71 leave the state alone, export nothing and dump nothing. *)
Lemma scoring_run (o a : string) (v : json) (s : State) :
  exists r l,
    scoring o a v w s = (r, s, l) /\ exported l = [] /\ dumped l = [] /\
    (forall c, r <> SystemExit c).
Proof.
  unfold scoring, bind, os_makedirs, score_of, print, ret.
  destruct (makedirs_ok w o).
  - destruct (torch_score w CreditScoreModel v) as [x|];
      do 2 eexists; repeat split; discriminate.
  - do 2 eexists; repeat split; discriminate.
Qed.

(** Lines 73-86, by the flag and by what the export answers. *)
Lemma export_step_run (o : string) (flag : string) (s : State) :
  export_step o (flag =? "1") w s =
  if flag =? "1"
  then if export_ok w CreditScoreModel (path_join o "credit_model.onnx")
       then (Val tt, s, export_log o flag)
       else (Raise TorchError, s,
             [Print [Text "Generating model file: ";
                     Text (path_join o "credit_model.onnx")];
              Export CreditScoreModel (path_join o "credit_model.onnx") false])
  else (Val tt, s, export_log o flag).
Proof.
  unfold export_step, export_log, bind, print_str, print, onnx_export.
  destruct (flag =? "1"); [|reflexivity].
  destruct (export_ok w CreditScoreModel (path_join o "credit_model.onnx"));
    reflexivity.
Qed.

(** Lines 88-133 export nothing; when they complete, they have dumped the
    three JSON files, in order. *)
Lemma artifacts_run (o a : string) (v : json) (x : float) (s : State) :
  exists r s' l,
    artifacts o a v x w s = (r, s', l) /\ exported l = [] /\
    (forall c, r <> SystemExit c) /\
    (forall u, r = Val u -> dumped l = artifact_paths o).
Proof.
  unfold artifacts, int, bind, ret, raise, print, dump_to, time_now,
    artifact_paths.
  destruct (Prim2SF (x * 1000)) as [sg|sg| |sg m e]; cbv beta iota;
    try (do 3 eexists; repeat split; discriminate);
    destruct (open_ok w (path_join o "input.json")); cbv beta iota;
    try (do 3 eexists; repeat split; discriminate);
    destruct (open_ok w (path_join o "scaling_debug.json")); cbv beta iota;
    try (do 3 eexists; repeat split; discriminate);
    destruct (open_ok w (path_join o "metadata.json")); cbv beta iota;
    do 3 eexists; repeat split; discriminate.
Qed.

End Blocks.

Section FlagClaim.
Import Py CreateModelSpec Samples ScriptCreateModel.

Lemma exported_app (a b : list event) :
  exported (a ++ b) = exported a ++ exported b.
Proof. apply flat_map_app. Qed.

Lemma dumped_app (a b : list event) : dumped (a ++ b) = dumped a ++ dumped b.
Proof. apply flat_map_app. Qed.

Lemma exported_prints (lines : list (list piece)) :
  exported (map Print lines) = [].
Proof. induction lines as [|x l IH]; [reflexivity | exact IH]. Qed.

Lemma closing_line_silent (o flag : string) :
  exported [closing_line o flag] = [] /\ dumped [closing_line o flag] = [].
Proof. unfold closing_line. destruct (flag =? "1"); split; reflexivity. Qed.

(** The run of the script on arguments that pass validation, block by
    block. *)
Lemma script_run_flag (w : World) (p o a f flag : string)
    (more : list string) (items : list json) (r1 : result float)
    (l1 : list event) :
  four_items w f items ->
  scoring o a (JArray items) w start = (r1, start, l1) ->
  run (argv_of p o a f flag more) w =
  match r1 with
  | Val x =>
      match export_step o (flag =? "1") w start with
      | (Val _, s2, l2) =>
          match artifacts o a (JArray items) x w s2 with
          | (Val _, _, l3) => (l1 ++ l2 ++ l3 ++ [closing_line o flag], 0%Z)
          | (r3, _, l3) => (l1 ++ l2 ++ l3, exit_status r3)
          end
      | (r2, _, l2) => (l1 ++ l2, exit_status r2)
      end
  | Raise e => (l1, 1%Z)
  | SystemExit c => (l1, c)
  end.
Proof.
  intros Hit Hs. unfold run, script, bind at 1.
  rewrite (script_validate_accepted w (argv_of p o a f flag more) start items);
    [|cbn; lia|exact Hit].
  cbn [nth argv_of app]. unfold bind at 1. rewrite Hs.
  destruct r1 as [x|e|c]; [|reflexivity..].
  unfold bind at 1.
  destruct (export_step o (flag =? "1") w start) as [[[[]|e|c] s2] l2];
    [|reflexivity..].
  unfold bind at 1.
  destruct (artifacts o a (JArray items) x w s2) as [[[[]|e|c] s3] l3];
    [|reflexivity..].
  unfold farewell, closing_line, print.
  destruct (flag =? "1"); reflexivity.
Qed.

(** The features argument is refused or is a list of four elements. *)
Lemma refused_or_four (w : World) (f : string) :
  refused w f \/ exists items, four_items w f items.
Proof.
  unfold refused, four_items.
  destruct (json_loads w f) as [v|]; [|left; left; reflexivity].
  destruct v as [| | | | |items|];
    try (left; right; eexists; split; [reflexivity|discriminate]).
  destruct (Nat.eq_dec (length items) 4) as [H4|Hn].
  - right. exists items. auto.
  - left. right. eexists. split; [reflexivity|].
    intros ? [= <-]. exact Hn.
Qed.

(** C10 as worded fails, in two ways.  Four strings pass validation, torch
    cannot build a tensor from them, and the run ends with status 1 after
    creating the output directory: no JSON file is written, although the
    flag is not "1".  And the flag does decide whether the JSON files are
    written when the export raises: with "1" the run stops at the export,
    with "0" it writes all three. *)
Lemma flag_frame_needs_completion :
  trace (sample_argv four_strings "0") calm = [Makedirs "out" true] /\
  status (sample_argv four_strings "0") calm = 1%Z /\
  ~ flag_frame_as_worded calm (sample_argv four_strings "0") /\
  dumped (trace (sample_argv four_numbers "1") no_onnx) = [] /\
  dumped (trace (sample_argv four_numbers "0") no_onnx) =
    ["out/input.json"; "out/scaling_debug.json"; "out/metadata.json"] /\
  ~ flag_blind_as_worded no_onnx "./script/create_model.py" "out" "0xabc"
      four_numbers.
Proof.
  split; [reflexivity|]. split; [reflexivity|]. split; [|repeat split].
  - intros H. destruct H as [_ H].
    + cbn. lia.
    + eexists. split; reflexivity.
    + discriminate.
    + discriminate.
  - intros H. specialize (H "1" "0"). discriminate.
Qed.

(** C10 (model-generation flag), amended.  For the script variant, with the
    flag as fifth entry of the argument vector:
    - when the flag is any string other than "1", the export is never
      called, so no model file is written;
    - every run that completes (exit status 0) has dumped input.json,
      scaling_debug.json and metadata.json in the output directory, in this
      order and nothing else, and has exported the model exactly when the
      flag is "1";
    - the flag decides nothing but the export step (its progress line and
      the export) and the closing line: the completing runs with the other
      arguments fixed share what is logged before the export step and what
      is logged between it and the closing line. *)
Theorem model_flag_frame (w : World) (prog out addr feats : string)
    (more : list string) :
  (forall flag, flag <> "1" ->
     exported (trace (argv_of prog out addr feats flag more) w) = []) /\
  (forall flag, status (argv_of prog out addr feats flag more) w = 0%Z ->
     dumped (trace (argv_of prog out addr feats flag more) w) =
       [path_join out "input.json"; path_join out "scaling_debug.json";
        path_join out "metadata.json"] /\
     exported (trace (argv_of prog out addr feats flag more) w) =
       if flag =? "1" then [path_join out "credit_model.onnx"] else []) /\
  (exists before between,
     forall flag, status (argv_of prog out addr feats flag more) w = 0%Z ->
       trace (argv_of prog out addr feats flag more) w =
       before ++ export_log out flag ++ between ++ [closing_line out flag]).
Proof.
  unfold trace, status.
  destruct (refused_or_four w feats) as [Href|[items Hit]].
  { assert (Hrun : forall flag, exists lines,
              run (argv_of prog out addr feats flag more) w =
              (map Print lines, 1%Z)).
    { intros flag.
      destruct (script_run_refused w (argv_of prog out addr feats flag more))
        as (lines & _ & E); [right; exact Href|eauto]. }
    split; [|split].
    - intros flag _. destruct (Hrun flag) as [lines ->].
      apply exported_prints.
    - intros flag. destruct (Hrun flag) as [lines ->]. discriminate.
    - exists [], []. intros flag. destruct (Hrun flag) as [lines ->].
      discriminate. }
  destruct (scoring_run w out addr (JArray items) start)
    as (r1 & l1 & Hs & He1 & Hd1 & Hx1).
  pose proof (fun flag =>
    script_run_flag w prog out addr feats flag more items r1 l1 Hit Hs)
    as Hrun.
  destruct r1 as [x|e|c].
  2:{ split; [|split].
      - intros flag _. rewrite Hrun. exact He1.
      - intros flag. rewrite Hrun. discriminate.
      - exists [], []. intros flag. rewrite Hrun. discriminate. }
  2:{ destruct (Hx1 c eq_refl). }
  destruct (artifacts_run w out addr (JArray items) x start)
    as (r3 & s3 & l3 & Ha & He3 & Hx3 & Hd3).
  assert (Hflag : forall flag,
    run (argv_of prog out addr feats flag more) w =
    if flag =? "1"
    then if export_ok w CreditScoreModel (path_join out "credit_model.onnx")
         then match r3 with
              | Val _ => (l1 ++ export_log out flag ++ l3 ++
                          [closing_line out flag], 0%Z)
              | _ => (l1 ++ export_log out flag ++ l3, exit_status r3)
              end
         else (l1 ++
               [Print [Text "Generating model file: ";
                       Text (path_join out "credit_model.onnx")];
                Export CreditScoreModel (path_join out "credit_model.onnx")
                  false], 1%Z)
    else match r3 with
         | Val _ => (l1 ++ export_log out flag ++ l3 ++
                     [closing_line out flag], 0%Z)
         | _ => (l1 ++ export_log out flag ++ l3, exit_status r3)
         end).
  { intros flag. rewrite Hrun, export_step_run.
    destruct (flag =? "1");
      [destruct (export_ok w CreditScoreModel
                   (path_join out "credit_model.onnx")); [|reflexivity]|];
      rewrite Ha; destruct r3 as [[]| |]; reflexivity. }
  clear Hrun. split; [|split].
  - intros flag Hne. rewrite Hflag.
    apply String.eqb_neq in Hne. rewrite Hne.
    assert (Hl : exported (export_log out flag) = [])
      by (unfold export_log; rewrite Hne; reflexivity).
    destruct r3 as [[]|e|c]; cbn [fst];
      rewrite !exported_app, He1, Hl, He3,
        ?(proj1 (closing_line_silent out flag)); reflexivity.
  - intros flag. rewrite Hflag.
    assert (Hl : exported (export_log out flag) =
                 (if flag =? "1" then [path_join out "credit_model.onnx"]
                  else []) /\ dumped (export_log out flag) = []).
    { unfold export_log. destruct (flag =? "1"); split; reflexivity. }
    destruct Hl as [Hl Hl'].
    assert (Hok : forall u, r3 = Val u ->
              dumped (l1 ++ export_log out flag ++ l3 ++
                      [closing_line out flag]) =
                [path_join out "input.json";
                 path_join out "scaling_debug.json";
                 path_join out "metadata.json"] /\
              exported (l1 ++ export_log out flag ++ l3 ++
                        [closing_line out flag]) =
                if flag =? "1" then [path_join out "credit_model.onnx"]
                else []).
    { intros u Hu. rewrite !dumped_app, !exported_app, Hd1, He1, Hl, Hl', He3.
      rewrite (Hd3 u Hu).
      destruct (closing_line_silent out flag) as [-> ->].
      rewrite !app_nil_r. split; reflexivity. }
    destruct r3 as [u|e|c]; [|destruct (flag =? "1");
      [destruct (export_ok w CreditScoreModel _)|]; discriminate
      |destruct (Hx3 c eq_refl)].
    destruct (flag =? "1");
      [destruct (export_ok w CreditScoreModel _); [|discriminate]|];
      intros _; cbn [fst]; exact (Hok u eq_refl).
  - exists l1, l3. intros flag. rewrite Hflag.
    destruct r3 as [u|e|c]; [|destruct (flag =? "1");
      [destruct (export_ok w CreditScoreModel _)|]; discriminate
      |destruct (Hx3 c eq_refl)].
    destruct (flag =? "1");
      [destruct (export_ok w CreditScoreModel _); [|discriminate]|];
      reflexivity.
Qed.

End FlagClaim.

Section CreateModelWitnesses.
Import Py CreateModelSpec Samples.

(** Three concrete runs of the script variant. *)
Example flag_one_run :
  dumped (ScriptCreateModel.trace (sample_argv four_numbers "1") calm) =
    ["out/input.json"; "out/scaling_debug.json"; "out/metadata.json"] /\
  exported (ScriptCreateModel.trace (sample_argv four_numbers "1") calm) =
    ["out/credit_model.onnx"] /\
  ScriptCreateModel.status (sample_argv four_numbers "1") calm = 0%Z.
Proof. repeat split. Qed.

Example flag_zero_run :
  dumped (ScriptCreateModel.trace (sample_argv four_numbers "0") calm) =
    ["out/input.json"; "out/scaling_debug.json"; "out/metadata.json"] /\
  exported (ScriptCreateModel.trace (sample_argv four_numbers "0") calm) =
    [] /\
  ScriptCreateModel.status (sample_argv four_numbers "0") calm = 0%Z.
Proof. repeat split. Qed.

Example three_numbers_run :
  ScriptCreateModel.run (sample_argv three_numbers "1") calm =
    ([Print [Text "Error: "; Text "Features must be a list of 4 numbers"]],
     1%Z).
Proof. reflexivity. Qed.

Example not_json_run :
  CreateModel.run ["create_model.py"; "out"; "0xabc"; not_json] calm =
    ([Print [Text "Error: Features must be a valid JSON array"]], 1%Z).
Proof. reflexivity. Qed.

Example too_few_arguments_run :
  ScriptCreateModel.run ["./script/create_model.py"; "out"; "0xabc";
                         four_numbers] calm =
    ([Print [Text "Usage: python3 ./script/create_model.py <output_dir> <address> <features> <generate_model_flag>"];
      Print [Text "where generate_model_flag is 1 to generate model or 0 to skip model generation"]],
     1%Z) /\
  exists rest,
    CreateModel.trace ["./script/create_model.py"; "out"; "0xabc";
                       four_numbers] calm =
    Makedirs "out" true :: rest.
Proof. split; [reflexivity | eexists; reflexivity]. Qed.

Lemma argument_validation_witness :
  refused calm not_json /\
  refused calm three_numbers /\
  four_items calm four_strings
    [JString "a"; JString "b"; JString "c"; JString "d"] /\
  CreateModel.status ["create_model.py"; "out"; "0xabc"; not_json] calm
    = 1%Z /\
  ScriptCreateModel.status (sample_argv three_numbers "1") calm = 1%Z /\
  exists done rest,
    ScriptCreateModel.trace (sample_argv four_strings "0") calm =
    Makedirs "out" done :: rest.
Proof.
  assert (H1 : refused calm not_json) by (left; reflexivity).
  assert (H2 : refused calm three_numbers).
  { right. eexists. split; [reflexivity|]. intros items [= <-]. discriminate. }
  assert (H3 : four_items calm four_strings
                 [JString "a"; JString "b"; JString "c"; JString "d"])
    by (split; reflexivity).
  split; [exact H1|]. split; [exact H2|]. split; [exact H3|].
  split; [|split].
  - apply (proj1 (argument_validation calm
                    ["create_model.py"; "out"; "0xabc"; not_json])).
    right. exact H1.
  - apply (proj1 (proj2 (argument_validation calm
                           (sample_argv three_numbers "1")))).
    right. exact H2.
  - apply (proj2 (proj2 (argument_validation calm
                           (sample_argv four_strings "0"))) _ H3).
    cbn. lia.
Defined.

Lemma model_flag_frame_witness :
  ScriptCreateModel.status (sample_argv four_numbers "0") calm = 0%Z /\
  dumped (ScriptCreateModel.trace (sample_argv four_numbers "0") calm) =
    ["out/input.json"; "out/scaling_debug.json"; "out/metadata.json"] /\
  exported (ScriptCreateModel.trace (sample_argv four_numbers "0") calm) = [].
Proof.
  split; [reflexivity|].
  apply (proj1 (proj2 (model_flag_frame calm "./script/create_model.py" "out"
                         "0xabc" four_numbers [])) "0").
  reflexivity.
Defined.

End CreateModelWitnesses.

Section RunEzklMore.
Import Py RunEzkl RunEzklSpec Samples MoreSpec.

(** No stage description is the completion line or a failure report. *)
Lemma stage_messages (args : Namespace) (msg : string) :
  In msg (map snd (registry args)) ->
  msg <> "EZKL processing complete!" /\ forall c, msg <> failed_step c.
Proof.
  cbn. intros H.
  repeat (destruct H as [<-|H]; [split; [|intros c]; discriminate|]).
  destruct H.
Qed.

Lemma pipeline_messages (args : Namespace) (msg : string) :
  In msg (map snd (pipeline args)) -> In msg (map snd (registry args)).
Proof.
  destruct (registry_pipeline args) as [extra ->].
  rewrite map_app. intros H. apply in_or_app. left. exact H.
Qed.

Lemma failed_step_not_completion (c : list string) :
  failed_step c <> "EZKL processing complete!".
Proof. discriminate. Qed.

Local Opaque failed_step.

(** The commands a run invokes are an initial segment of the installation
    check followed by the nine stage commands. *)
Lemma run_invoked_segment (args : Namespace) (w : World) :
  exists rest,
    preflight :: map fst (registry args) = invoked (fst (run args w)) ++ rest.
Proof.
  destruct (run_cases args w) as [[_ E]|[(_ & _ & E)|(_ & _ & E)]];
    rewrite E; cbn [fst].
  - eexists. reflexivity.
  - eexists. reflexivity.
  - destruct (registry_pipeline args) as [extra ->].
    destruct (loop_log_invoked_prefix w (Some (working_dir args))
                (pipeline args)) as [rest Hrest].
    exists (rest ++ map fst extra).
    rewrite !invoked_app, map_app, Hrest.
    destruct (loop_result w (pipeline args)); cbn;
      rewrite app_nil_r, <- app_assoc; reflexivity.
Qed.

(** Once the command line is parsed: the exit status is 0 or 1; it is 0
    exactly when the completion line is printed, and exactly when the
    working directory is entered and the installation check and every stage
    the arguments ask for return 0. *)
Lemma parsed_exit_status (args : Namespace) (w : World) :
  (status args w = 0%Z \/ status args w = 1%Z) /\
  (status args w = 0%Z <->
   In (Print [Text "EZKL processing complete!"]) (trace args w)) /\
  (status args w = 0%Z <->
   chdir_ok w (working_dir args) = true /\
   forall c,
     In c (preflight ::
           map fst (steps args ++
                    if generate_contract args then contract_step args
                    else [])) ->
     exists out, spawn w c = Returned 0 out).
Proof.
  fold (pipeline args). unfold status, trace.
  destruct (run_cases args w) as [[Hd E]|[(Hd & Hp & E)|(Hd & Hp & E)]];
    rewrite E, Hd; cbn [fst snd].
  - split; [auto|]. split; split; try discriminate.
    + intros [H|[]]. discriminate.
    + intros [H _]. discriminate.
  - split; [auto|]. split; split; try discriminate.
    + intros [H|[H|[H|[]]]]; discriminate.
    + intros [_ H]. destruct (H preflight (or_introl eq_refl)) as [out Ho].
      rewrite Ho in Hp. discriminate.
  - split; [|split].
    + destruct (loop_result_cases w (pipeline args)) as [->|[->| ->]]; auto.
    + split.
      * destruct (loop_result_cases w (pipeline args)) as [->|[->| ->]];
          try discriminate.
        intros _. apply in_or_app. right. apply in_or_app. right.
        left. reflexivity.
      * cbn [app]. intros [H|[H|H]]; [discriminate|discriminate|].
        apply in_app_or in H. destruct H as [H|H].
        -- exfalso. apply loop_log_print in H.
           destruct H as [(m & Hm & H)|(c & _ & H)].
           ++ apply pipeline_messages in Hm.
              apply (proj1 (stage_messages args m Hm)). congruence.
           ++ apply (failed_step_not_completion c). congruence.
        -- destruct (loop_result w (pipeline args)); [reflexivity|destruct H..].
    + assert (Hpre : exists out, spawn w preflight = Returned 0 out).
      { destruct (spawn w preflight) as [rc out|]; [|discriminate].
        cbn in Hp. apply Z.eqb_eq in Hp. subst. eauto. }
      split.
      * intros Hs. split; [reflexivity|].
        assert (Hv : loop_result w (pipeline args) = Val tt).
        { destruct (loop_result_cases w (pipeline args)) as [H|[H|H]];
            rewrite H in Hs; [exact H|discriminate..]. }
        intros c [<-|Hc]; [exact Hpre|].
        exact (proj1 (loop_result_val_iff w _) Hv c Hc).
      * intros [_ H].
        rewrite (proj2 (loop_result_val_iff w (pipeline args))); [reflexivity|].
        intros c Hc. apply H. right. exact Hc.
Qed.

(** From the command line, a run is the run of the parsed arguments. *)
Lemma main_run_parsed (args : Namespace) (w : World) :
  main_run (Parsed args) w = run args w.
Proof.
  unfold main_run, run, main, parse_args, bind, ret.
  destruct (main_body args w start) as [[r s] l]. reflexivity.
Qed.

(** X1 (exit status).  The exit status of a run of the script is 0, 1 or 2.
    It is 2 exactly when argparse rejects the command line, and then nothing
    is printed to the standard output and nothing is run.  It is 0 exactly
    when the help was asked for, which prints the help text and nothing
    else, or the completion line is printed.  And when the command line
    parses, the status is 0 exactly when the working directory is entered
    and the installation check and every stage the arguments ask for return
    0. *)
Theorem exit_status_meaning (cmdline : parsed) (w : World) :
  (main_status cmdline w = 0%Z \/ main_status cmdline w = 1%Z \/
   main_status cmdline w = 2%Z) /\
  (main_status cmdline w = 2%Z <-> exists message, cmdline = Rejected message) /\
  (main_status cmdline w = 0%Z <->
   (exists text, cmdline = Help text) \/
   In (Print [Text "EZKL processing complete!"]) (main_trace cmdline w)) /\
  (forall message, cmdline = Rejected message -> main_trace cmdline w = []) /\
  (forall text, cmdline = Help text ->
     main_trace cmdline w = [Print [Text text]]) /\
  (forall args, cmdline = Parsed args ->
     main_trace cmdline w = trace args w /\
     (main_status cmdline w = 0%Z <->
      chdir_ok w (working_dir args) = true /\
      forall c,
        In c (preflight ::
              map fst (steps args ++
                       if generate_contract args then contract_step args
                       else [])) ->
        exists out, spawn w c = Returned 0 out)).
Proof.
  unfold main_status, main_trace.
  destruct cmdline as [args|text|message].
  - rewrite main_run_parsed. fold (status args w). fold (trace args w).
    destruct (parsed_exit_status args w) as (H01 & Hline & Hall).
    split; [tauto|]. split; [|split; [|split; [|split]]].
    + split; [|intros [m H]; discriminate].
      intros H2. exfalso. destruct H01 as [H|H]; rewrite H in H2;
        discriminate.
    + split; [intros H; right; apply Hline; exact H|].
      intros [[t H]|H]; [discriminate|apply Hline; exact H].
    + discriminate.
    + discriminate.
    + intros args' [= <-]. split; [reflexivity|exact Hall].
  - cbn. split; [auto|]. split; [|split; [|split; [|split]]].
    + split; [discriminate|intros [m H]; discriminate].
    + split; [intros _; left; eauto|reflexivity].
    + discriminate.
    + intros t [= <-]. reflexivity.
    + discriminate.
  - cbn. split; [auto|]. split; [|split; [|split; [|split]]].
    + split; [intros _; eauto|reflexivity].
    + split; [discriminate|intros [[t H]|[]]; discriminate].
    + reflexivity.
    + discriminate.
    + discriminate.
Qed.

(** X2 (a stage that cannot be started).  Take any stage of the core or of
    the extension list.  If a run tried its command and the child could not
    be started, the log ends with the stage's description and that attempt,
    no failure report is printed anywhere in the run, no later stage is
    invoked, and the exit status is 1. *)
Theorem stage_launch_failure (args : Namespace) (w : World)
    (earlier later : list (list string * string))
    (cmd : list string) (msg : string) (d : option string) (cap : bool) :
  steps args ++ contract_step args = earlier ++ (cmd, msg) :: later ->
  In (Spawn d cmd cap NotStarted) (trace args w) ->
  (exists before,
     trace args w =
     before ++ [Print [Text msg]; Spawn d cmd cap NotStarted]) /\
  (forall c, ~ In (Print [Text ("Failed step: " ++ join " " c)])
                  (trace args w)) /\
  (forall c, In c (map fst later) -> ~ In c (invoked (trace args w))) /\
  status args w = 1%Z.
Proof.
  intros Hreg Hin. fold (registry args) in Hreg.
  assert (Hcmd : cmd <> preflight).
  { apply (stage_not_preflight args). rewrite Hreg, map_app.
    apply in_or_app. right. left. reflexivity. }
  unfold trace, status in *.
  destruct (run_spawn args w _ _ _ _ Hin) as [[H _]|(Hl & _ & E)];
    [contradiction|].
  rewrite E. cbn [fst snd]. clear E Hin.
  destruct (loop_log_not_started w _ _ _ _ _ Hl)
    as (l1 & m & l2 & Hp & Hr & Hv & Hb).
  destruct (registry_pipeline args) as [extra Hx].
  rewrite Hp, <- app_assoc in Hx. cbn [app] in Hx.
  pose proof (commands_distinct args) as Hnd.
  assert (Hnd' := proj2 (proj1 (NoDup_cons_iff _ _) Hnd)).
  rewrite Hx in Hnd'.
  pose proof (eq_trans (eq_sym Hx) Hreg) as Hsplit.
  destruct (split_unique _ _ _ _ _ _ Hnd' Hsplit eq_refl) as [<- <-].
  apply app_inv_head in Hsplit. injection Hsplit as <-.
  rewrite Hr, app_nil_r, Hb. repeat split.
  - exists ([Chdir (working_dir args) true;
             Spawn (Some (working_dir args)) preflight true
               (spawn w preflight)] ++
            loop_log w (Some (working_dir args)) l1).
    rewrite <- app_assoc. reflexivity.
  - intros c H. change ("Failed step: " ++ join " " c)%string with (failed_step c) in H.
    cbn [app In] in H. destruct H as [H|[H|H]]; [discriminate|discriminate|].
    apply in_app_or in H. destruct H as [H|[H|[H|[]]]]; [| |discriminate].
    + destruct (loop_log_passed w _ _ _ Hv H) as (m' & Hm & E).
      assert (Hm' : In m' (map snd (registry args))).
      { rewrite Hx, map_app. apply in_or_app. left. exact Hm. }
      apply (proj2 (stage_messages args m' Hm') c). congruence.
    + assert (Hm' : In m (map snd (registry args))).
      { rewrite Hx, map_app. apply in_or_app. right. left. reflexivity. }
      apply (proj2 (stage_messages args m Hm') c). congruence.
  - intros c Hc. rewrite !invoked_app.
    rewrite (proj2 (loop_log_all_zero w (Some (working_dir args)) l1
              (fun d' c' cap' a' Hi =>
                 match loop_log_spawn w _ _ _ _ _ _ Hi with
                 | conj _ (conj _ (conj Ha Hm)) =>
                     match proj1 (loop_result_val_iff w l1) Hv c' Hm with
                     | ex_intro _ o Ho => ex_intro _ o (eq_trans Ha Ho)
                     end
                 end))).
    apply (later_not_earlier preflight (map fst l1) (map fst (l2 ++ extra))
             cmd c); [|exact Hc].
    rewrite Hx, map_app in Hnd. exact Hnd.
Qed.

(** X3 (each command once).  No run invokes the same command twice. *)
Theorem each_command_once (args : Namespace) (w : World) :
  NoDup (invoked (trace args w)).
Proof.
  destruct (run_invoked_segment args w) as [rest H].
  pose proof (commands_distinct args) as Hnd. rewrite H in Hnd.
  exact (NoDup_app_remove_r _ _ Hnd).
Qed.

(** When [e] does not occur in [y], a split of [x ++ y] at [e] falls in
    [x]. *)
Lemma split_inside {A : Type} (x y before after : list A) (e : A) :
  x ++ y = before ++ e :: after -> ~ In e y ->
  exists after', x = before ++ e :: after'.
Proof.
  revert before. induction x as [|a x IH]; intros before E Hn.
  - exfalso. apply Hn. cbn in E. rewrite E. apply in_or_app. right. left.
    reflexivity.
  - destruct before as [|b before]; injection E as -> E.
    + exists x. reflexivity.
    + destruct (IH before E Hn) as [k ->]. exists k. reflexivity.
Qed.

(** X4 (progress lines).  Every stage invocation comes right after the line
    that announces it: an invocation with streamed output found in the log is
    immediately preceded by the printing of the description the script
    lists for that command. *)
Theorem progress_before_command (args : Namespace) (w : World)
    (before after : list event) (d : option string) (c : list string)
    (a : completed) :
  trace args w = before ++ Spawn d c false a :: after ->
  exists earlier msg,
    before = earlier ++ [Print [Text msg]] /\
    In (c, msg) (steps args ++ contract_step args).
Proof.
  intros Htr. fold (registry args). unfold trace in Htr.
  destruct (run_cases args w) as [[_ E]|[(_ & _ & E)|(_ & _ & E)]];
    rewrite E in Htr; cbn [fst app] in Htr.
  - destruct before as [|? [|? ?]]; discriminate.
  - destruct before as [|? [|? [|? [|? ?]]]]; discriminate.
  - remember (loop_log w (Some (working_dir args)) (pipeline args)) as L
      eqn:HL.
    assert (HT : ~ In (Spawn d c false a)
                   match loop_result w (pipeline args) with
                   | Val _ => [completion]
                   | _ => []
                   end).
    { destruct (loop_result w (pipeline args)); [|intros []..].
      intros [H|[]]. discriminate. }
    revert Htr HT. generalize (match loop_result w (pipeline args) with
                               | Val _ => [completion]
                               | _ => []
                               end).
    intros T Htr HT.
    destruct before as [|e1 [|e2 before]]; [discriminate..|].
    injection Htr as <- <- Htr.
    destruct (split_inside _ _ _ _ _ Htr HT) as [after' Hl].
    rewrite HL in Hl.
    destruct (loop_log_announced w _ _ _ _ _ _ _ _ Hl)
      as (earlier & msg & -> & Hm).
    exists (Chdir (working_dir args) true ::
            Spawn (Some (working_dir args)) preflight true
              (spawn w preflight) :: earlier), msg.
    split; [reflexivity|].
    destruct (registry_pipeline args) as [extra ->].
    apply in_or_app. left. exact Hm.
Qed.

(** X5 (what the operator sees of the children).  The installation check is
    always run with its output captured and every other command with its
    output streamed; so the console never shows output of the check, also
    when the check succeeds, and shows the output of every stage that ran. *)
Theorem output_policy (args : Namespace) (w : World) :
  (forall d c cap a, In (Spawn d c cap a) (trace args w) ->
     (c = preflight /\ cap = true) \/
     (In c (map fst (steps args ++ contract_step args)) /\ cap = false)) /\
  (forall out, ~ In (ChildOutput preflight out) (console (trace args w))) /\
  (forall d c cap rc out,
     In (Spawn d c cap (Returned rc out)) (trace args w) -> c <> preflight ->
     In (ChildOutput c out) (console (trace args w))).
Proof.
  assert (H1 : forall d c cap a, In (Spawn d c cap a) (trace args w) ->
     (c = preflight /\ cap = true) \/
     (In c (map fst (registry args)) /\ cap = false)).
  { intros d c cap a Hin. unfold trace in Hin.
    destruct (run_spawn args w _ _ _ _ Hin) as [(-> & _ & -> & _)|(Hl & _)];
      [left; auto|right].
    apply loop_log_spawn in Hl. destruct Hl as (_ & -> & _ & Hl).
    split; [|reflexivity]. apply pipeline_in_registry. exact Hl. }
  split; [exact H1|]. split.
  - intros out Hin. unfold console in Hin. apply in_flat_map in Hin.
    destruct Hin as (e & He & Hc).
    destruct e as [| d c cap a | | | | |]; cbn [console_of] in Hc;
      try contradiction; [|destruct Hc as [Hc|[]]; discriminate].
    destruct cap; [destruct Hc|].
    destruct a as [rc o|]; [|destruct Hc].
    destruct Hc as [Hc|[]]. injection Hc as -> _.
    destruct (H1 _ _ _ _ He) as [[_ H]|[H _]]; [discriminate|].
    exact (stage_not_preflight args preflight H eq_refl).
  - intros d c cap rc out Hin Hc.
    destruct (H1 _ _ _ _ Hin) as [[H _]|[_ ->]]; [contradiction|].
    unfold console. apply in_flat_map. eexists. split; [exact Hin|].
    left. reflexivity.
Qed.

(** X6 (model path).  Change the model path of the arguments and compare the
    nine commands stage by stage: the commands of gen-settings,
    calibrate-settings and compile-circuit start with [ezkl <stage> -M
    <model>] and change in that token only; the commands of the six other
    stages do not change. *)
Theorem model_parameterization (args : Namespace) (model : string) :
  Forall2 (model_bound (model_path args) model)
          (map fst (steps args ++ contract_step args))
          (map fst (steps (with_model args model) ++
                    contract_step (with_model args model))) /\
  filter takes_model
         (map (fun st => subcommand (fst st))
              (steps args ++ contract_step args)) =
    ["gen-settings"; "calibrate-settings"; "compile-circuit"].
Proof.
  split; [|reflexivity].
  cbn [steps contract_step app map fst with_model srs_path model_path].
  repeat (apply Forall2_cons; [|]); try apply Forall2_nil;
    unfold model_bound;
    match goal with
    | |- context [takes_model ?n] =>
        let b := eval vm_compute in (takes_model n) in
        change (takes_model n) with b; cbv iota
    end;
    try reflexivity;
    match goal with
    | |- exists back, ?c = _ /\ _ =>
        exists (skipn 4 c); split; reflexivity
    end.
Qed.

(** X7 (where a run stops).  Suppose the working directory is entered, the
    installation check returns 0, the stages [passed] at the head of the
    list the arguments ask for all return 0, and the next stage returns
    [rc <> 0].  Then the run invokes the check, the commands of [passed]
    and that stage's command, and nothing else; the last two things on the
    console are the output of that stage and the failure report naming its
    command; and the exit status is 1. *)
Theorem failure_position (args : Namespace) (w : World)
    (passed rest : list (list string * string)) (cmd : list string)
    (msg : string) (rc : Z) (out : string) :
  chdir_ok w (working_dir args) = true ->
  (exists o, spawn w preflight = Returned 0 o) ->
  steps args ++ (if generate_contract args then contract_step args else []) =
    passed ++ (cmd, msg) :: rest ->
  (forall c, In c (map fst passed) -> exists o, spawn w c = Returned 0 o) ->
  spawn w cmd = Returned rc out ->
  rc <> 0%Z ->
  invoked (trace args w) = preflight :: map fst passed ++ [cmd] /\
  (exists before,
     console (trace args w) =
     before ++ [ChildOutput cmd out;
                Line [Text ("Failed step: " ++ join " " cmd)]]) /\
  status args w = 1%Z.
Proof.
  intros Hd [o Ho] Hsplit Hp Hc Hrc. fold (pipeline args) in Hsplit.
  unfold trace, status.
  rewrite (run_pipeline args w Hd) by (rewrite Ho; reflexivity).
  rewrite Hsplit.
  destruct (loop_log_stops w (Some (working_dir args)) passed rest cmd msg
              rc out Hp Hc Hrc) as (-> & -> & Hi).
  cbn [fst snd exit_status]. rewrite app_nil_r. repeat split.
  - rewrite !invoked_app, Hi. reflexivity.
  - exists (console [Chdir (working_dir args) true;
                     Spawn (Some (working_dir args)) preflight true
                       (Returned 0 o)] ++
            console (loop_log w (Some (working_dir args)) passed) ++
            [Line [Text msg]]).
    unfold console. rewrite !flat_map_app, Ho, <- !app_assoc. reflexivity.
Qed.

End RunEzklMore.

(* ===================================================================== *)
(** ** The create_model scripts: messages, flags and files                *)
(* ===================================================================== *)

Section CreateModelMore.
Import Py CreateModelSpec Samples MoreSpec.

(** X8 (validation messages).  What each variant prints when it refuses its
    arguments, by cause: the usage text when there are too few arguments
    (whatever the arguments are and whatever [json.loads] would say); one
    fixed line when the features argument is not JSON; and the text of the
    [ValueError] after "Error: " when it is JSON for something other than a
    list of four elements.  Nothing else is logged and the status is 1. *)
Theorem validation_messages (w : World) (argv : list string) :
  ((length argv < 4)%nat ->
   CreateModel.run argv w =
   ([Print [Text "Usage: python3 create_model.py <output_dir> <address> <features>"]],
    1%Z)) /\
  ((length argv < 5)%nat ->
   ScriptCreateModel.run argv w =
   ([Print [Text "Usage: python3 ./script/create_model.py <output_dir> <address> <features> <generate_model_flag>"];
     Print [Text "where generate_model_flag is 1 to generate model or 0 to skip model generation"]],
    1%Z)) /\
  (json_loads w (nth 3 argv "") = None ->
   ((4 <= length argv)%nat ->
    CreateModel.run argv w =
    ([Print [Text "Error: Features must be a valid JSON array"]], 1%Z)) /\
   ((5 <= length argv)%nat ->
    ScriptCreateModel.run argv w =
    ([Print [Text "Error: Features must be a valid JSON array"]], 1%Z))) /\
  (forall v, json_loads w (nth 3 argv "") = Some v ->
   (forall items, v = JArray items -> length items <> 4) ->
   ((4 <= length argv)%nat ->
    CreateModel.run argv w =
    ([Print [Text "Error: "; Text "Features must be a list of 4 numbers"]],
     1%Z)) /\
   ((5 <= length argv)%nat ->
    ScriptCreateModel.run argv w =
    ([Print [Text "Error: "; Text "Features must be a list of 4 numbers"]],
     1%Z))).
Proof.
  unfold CreateModel.run, CreateModel.script, CreateModel.validate,
    ScriptCreateModel.run, ScriptCreateModel.script,
    ScriptCreateModel.validate.
  split; [|split; [|split]].
  - intros H. apply Nat.ltb_lt in H. rewrite H. reflexivity.
  - intros H. apply Nat.ltb_lt in H. rewrite H. reflexivity.
  - intros E. split; intros H; apply Nat.ltb_ge in H; rewrite H;
      unfold bind at 1; unfold try_except_decode_value, bind at 1, loads;
      rewrite E; reflexivity.
  - intros v E Hv. split; intros H; apply Nat.ltb_ge in H; rewrite H;
      unfold bind at 1; unfold try_except_decode_value, bind at 1, loads;
      rewrite E;
      (destruct v as [| | | | |items|]; try reflexivity;
       destruct (Nat.eqb_spec (length items) 4) as [H4|_];
       [destruct (Hv items eq_refl H4)|reflexivity]).
Qed.

(** X9 (only "1" asks for the model).  In the script variant any two flags
    other than "1" -- "0", "true", "yes", the empty string -- give the same
    run: the same log, the same exit status. *)
Theorem only_one_generates (w : World) (prog out addr feats : string)
    (flag flag' : string) (more : list string) :
  flag <> "1" -> flag' <> "1" ->
  ScriptCreateModel.run (argv_of prog out addr feats flag more) w =
  ScriptCreateModel.run (argv_of prog out addr feats flag' more) w.
Proof.
  intros H H'. apply String.eqb_neq in H, H'.
  unfold ScriptCreateModel.run, ScriptCreateModel.script,
    ScriptCreateModel.validate, argv_of.
  cbn [length Nat.ltb Nat.leb nth]. rewrite H, H'. reflexivity.
Qed.

End CreateModelMore.

(* ===================================================================== *)
(** ** script/create_model.py: what is written, and when                  *)
(* ===================================================================== *)

Section ScriptFiles.
Import Py CreateModelSpec Samples MoreSpec ScriptCreateModel.

Variable w : World.

Lemma quiet_log (l : list event) :
  Forall (fun e => writes e = false) l ->
  dumped l = [] /\ opened l = [] /\ exported l = [].
Proof.
  induction 1 as [|e l He _ (IH1 & IH2 & IH3)]; [repeat split|].
  unfold dumped, opened, exported in *. cbn [flat_map].
  rewrite IH1, IH2, IH3. destruct e; try discriminate; repeat split.
Qed.

(** Lines 30-71: the directory is created first, nothing is written. *)
Lemma scoring_shape (o a : string) (v : json) (s : State) :
  exists r l,
    scoring o a v w s = (r, s, Makedirs o (makedirs_ok w o) :: l) /\
    Forall (fun e => writes e = false) l /\
    (forall x, r = Val x ->
       makedirs_ok w o = true /\ torch_score w CreditScoreModel v = Some x) /\
    (forall c, r <> SystemExit c).
Proof.
  unfold scoring, bind, os_makedirs, score_of, print, ret.
  destruct (makedirs_ok w o).
  - destruct (torch_score w CreditScoreModel v) as [x|];
      do 2 eexists; (split; [reflexivity|]);
      (split; [repeat constructor|]); split; try discriminate.
    intros x' [= <-]. auto.
  - do 2 eexists. split; [reflexivity|]. split; [constructor|].
    split; discriminate.
Qed.

(** [int] gives an integer only for a number. *)
Lemma int_val_number (x : float) (s : State) (z : Z) (s' : State)
    (l : list event) :
  int (x * 1000) w s = (Val z, s', l) -> Prim2SF x <> S754_nan.
Proof.
  unfold int. rewrite mul_spec. intros H E. rewrite E in H.
  cbn in H. discriminate.
Qed.

(** Lines 88-133: the three files are opened and dumped in order, and what
    they hold comes from the arguments and the score. *)
Lemma artifacts_detail (o a : string) (v : json) (x : float) (s : State) :
  exists r s' l,
    artifacts o a v x w s = (r, s', l) /\
    (exists rest, artifact_paths o = dumped l ++ rest) /\
    (exists rest, artifact_paths o = opened l ++ rest) /\
    exported l = [] /\
    (forall c, r <> SystemExit c) /\
    (forall p c, In (Dump p c) l ->
       exists z, int (x * 1000) w s = (Val z, s, []) /\ derived a v x z c /\
                 carries o a v x z p c).
Proof.
  unfold artifacts, bind at 1.
  destruct (int (x * 1000) w s) as [[r0 s0] l0] eqn:Ei.
  assert (Hi : (exists z, r0 = Val z /\ s0 = s /\ l0 = []) \/
               ((exists e, r0 = Raise e) /\ s0 = s /\ l0 = [])).
  { revert Ei. unfold int.
    destruct (Prim2SF (x * 1000)) as [sg|sg| |sg m e]; intros [= <- <- <-];
      eauto 6. }
  destruct Hi as [(z & -> & -> & ->)|((e & ->) & -> & ->)].
  2:{ do 3 eexists. split; [reflexivity|]. unfold artifact_paths.
      repeat split; try (eexists; reflexivity); try discriminate.
      intros p c []. }
  unfold bind, print, dump_to, time_now, artifact_paths.
  assert (Hd : forall p c,
    ((p = path_join o "input.json" /\
      c = JObject
           [("input_shapes", JArray [JArray [JInt 4]]);
            ("input_data", JArray [v]);
            ("output_data", JArray [JArray [JFloat x]]);
            ("public_output_idxs", JArray [JArray [JInt 0; JInt 0]])]) \/
     (p = path_join o "scaling_debug.json" /\ exists t, c = JObject
           [("address", JString a); ("features", v);
            ("original_score", JFloat x); ("scaled_score", JInt z);
            ("credit_tier", JString (tier_of x));
            ("favorable_rate_eligible", JBool (0.5 <? x)%float);
            ("model_weights", JArray (map JFloat model_weights));
            ("timestamp", JInt t)]) \/
     (p = path_join o "metadata.json" /\ exists t, c = JObject
           [("address", JString a); ("features", v); ("score", JFloat x);
            ("scaled_score", JInt z); ("timestamp", JInt t);
            ("model_version", JString "1.0.0")])) ->
    exists z', (Val z, s, @nil event) = (Val z', s, []) /\
               derived a v x z' c /\ carries o a v x z' p c).
  { intros p c Hc. exists z. split; [reflexivity|]. split.
    - destruct Hc as [[_ ->]|[[_ [t ->]]|[_ [t ->]]]]; unfold derived;
        repeat split; intros j Hj;
        cbn [field lookup String.eqb Ascii.eqb Bool.eqb andb] in Hj;
        congruence.
    - destruct Hc as [[-> ->]|[[-> [t ->]]|[-> [t ->]]]].
      + left. repeat split.
      + right. left. repeat split.
      + right. right. repeat split. }
  destruct (open_ok w (path_join o "input.json")); cbv beta iota;
    [|do 3 eexists; split; [reflexivity|];
      repeat split; try (eexists; reflexivity); try discriminate;
      intros p c [H|[H|[]]]; discriminate].
  destruct (open_ok w (path_join o "scaling_debug.json")); cbv beta iota;
    [|do 3 eexists; split; [reflexivity|];
      repeat split; try (eexists; reflexivity); try discriminate;
      intros p c [H|[H|[H|[H|[]]]]]; try discriminate;
      injection H as <- <-; apply Hd; auto].
  destruct (open_ok w (path_join o "metadata.json")); cbv beta iota;
    do 3 eexists; (split; [reflexivity|]);
    repeat split; try (eexists; reflexivity); try discriminate.
  - intros p c [H|[H|[H|[H|[H|[H|[H|[]]]]]]]]; try discriminate;
      injection H as <- <-; apply Hd; eauto 6.
  - intros p c [H|[H|[H|[H|[H|[H|[]]]]]]]; try discriminate;
      injection H as <- <-; apply Hd; eauto 6.
Qed.

(** A run of the script variant either stops in the validation, having
    printed only, or goes through the blocks. *)
Lemma script_run_shape (argv : list string) :
  (exists lines, run argv w = (map Print lines, 1%Z)) \/
  (exists p o a f flag more items,
     argv = argv_of p o a f flag more /\ four_items w f items).
Proof.
  destruct (Nat.ltb_spec (length argv) 5) as [Hlt|Hge].
  - left. destruct (script_run_refused w argv (or_introl Hlt))
      as (lines & _ & E). eauto.
  - destruct argv as [|p [|o [|a [|f [|flag more]]]]]; cbn in Hge; try lia.
    destruct (refused_or_four w f) as [Href|[items Hit]].
    + left. destruct (script_run_refused w
                        (p :: o :: a :: f :: flag :: more)
                        (or_intror Href)) as (lines & _ & E). eauto.
    + right. exists p, o, a, f, flag, more, items. split; [reflexivity|auto].
Qed.

(** The log of a run that got past the validation: the directory, then what
    the blocks add.  [tail] holds every export, open and dump of the run. *)
Lemma script_run_log (p o a f flag : string) (more : list string)
    (items : list json) :
  four_items w f items ->
  exists quiet tail,
    trace (argv_of p o a f flag more) w =
      Makedirs o (makedirs_ok w o) :: quiet ++ tail /\
    Forall (fun e => writes e = false) quiet /\
    (tail <> [] ->
     makedirs_ok w o = true /\
     exists x, torch_score w CreditScoreModel (JArray items) = Some x /\
     exists l2 r3 s3 l3 last,
       tail = l2 ++ l3 ++ last /\
       (l2 = export_log o flag \/
        (l3 = [] /\ last = [] /\
         l2 = [Print [Text "Generating model file: ";
                      Text (path_join o "credit_model.onnx")];
               Export CreditScoreModel (path_join o "credit_model.onnx")
                 false])) /\
       (l3 = [] \/ artifacts o a (JArray items) x w start = (r3, s3, l3)) /\
       (last = [] \/ last = [closing_line o flag])).
Proof.
  intros Hit.
  destruct (scoring_shape o a (JArray items) start)
    as (r1 & l1 & Hs & Hq & Hv & Hx).
  unfold trace.
  rewrite (script_run_flag w p o a f flag more items r1 _ Hit Hs).
  destruct r1 as [x|e|c]; [|exists l1, []; rewrite app_nil_r;
    split; [reflexivity|]; split; [exact Hq|]; intros H; destruct (H eq_refl)
    |destruct (Hx c eq_refl)].
  destruct (Hv x eq_refl) as [Hm Ht].
  exists l1. rewrite export_step_run.
  assert (Hcase : forall l2 l3 last r3 s3,
            (l2 = export_log o flag \/
             (l3 = [] /\ last = [] /\
              l2 = [Print [Text "Generating model file: ";
                           Text (path_join o "credit_model.onnx")];
                    Export CreditScoreModel
                      (path_join o "credit_model.onnx") false])) ->
            (l3 = [] \/ artifacts o a (JArray items) x w start = (r3, s3, l3)) ->
            (last = [] \/ last = [closing_line o flag]) ->
            exists tail,
              (Makedirs o (makedirs_ok w o) :: l1) ++ l2 ++ l3 ++ last =
                Makedirs o (makedirs_ok w o) :: l1 ++ tail /\
              Forall (fun e => writes e = false) l1 /\
              (tail <> [] ->
               makedirs_ok w o = true /\
               exists x0,
                 torch_score w CreditScoreModel (JArray items) = Some x0 /\
                 exists l2' r3' s3' l3' last',
                   tail = l2' ++ l3' ++ last' /\
                   (l2' = export_log o flag \/
                    (l3' = [] /\ last' = [] /\
                     l2' = [Print [Text "Generating model file: ";
                                  Text (path_join o "credit_model.onnx")];
                           Export CreditScoreModel
                             (path_join o "credit_model.onnx") false])) /\
                   (l3' = [] \/
                    artifacts o a (JArray items) x0 w start = (r3', s3', l3')) /\
                   (last' = [] \/ last' = [closing_line o flag]))).
  { intros l2 l3 last r3 s3 H2 H3 H4. exists (l2 ++ l3 ++ last).
    split; [reflexivity|]. split; [exact Hq|]. intros _.
    split; [exact Hm|]. exists x. split; [exact Ht|].
    exists l2, r3, s3, l3, last. auto. }
  destruct (flag =? "1") eqn:Ef;
    [destruct (export_ok w CreditScoreModel (path_join o "credit_model.onnx"))|].
  - destruct (artifacts o a (JArray items) x w start) as [[r3 s3] l3] eqn:Ea.
    destruct r3 as [[]|e|c]; cbn [fst].
    + apply (Hcase (export_log o flag) l3 [closing_line o flag] (Val tt) s3);
        auto.
    + replace (export_log o flag ++ l3) with (export_log o flag ++ l3 ++ [])
        by (rewrite app_nil_r; reflexivity).
      apply (Hcase (export_log o flag) l3 [] (Raise e) s3); auto.
    + replace (export_log o flag ++ l3) with (export_log o flag ++ l3 ++ [])
        by (rewrite app_nil_r; reflexivity).
      apply (Hcase (export_log o flag) l3 [] (SystemExit c) s3); auto.
  - cbn [fst].
    replace [Print [Text "Generating model file: ";
                    Text (path_join o "credit_model.onnx")];
             Export CreditScoreModel (path_join o "credit_model.onnx") false]
      with ([Print [Text "Generating model file: ";
                    Text (path_join o "credit_model.onnx")];
             Export CreditScoreModel (path_join o "credit_model.onnx") false]
              ++ [] ++ []) at 1 by reflexivity.
    apply (Hcase [Print [Text "Generating model file: ";
                         Text (path_join o "credit_model.onnx")];
                  Export CreditScoreModel (path_join o "credit_model.onnx")
                    false] [] [] (Val tt) start); auto.
  - destruct (artifacts o a (JArray items) x w start) as [[r3 s3] l3] eqn:Ea.
    destruct r3 as [[]|e|c]; cbn [fst].
    + apply (Hcase (export_log o flag) l3 [closing_line o flag] (Val tt) s3);
        auto.
    + replace (export_log o flag ++ l3) with (export_log o flag ++ l3 ++ [])
        by (rewrite app_nil_r; reflexivity).
      apply (Hcase (export_log o flag) l3 [] (Raise e) s3); auto.
    + replace (export_log o flag ++ l3) with (export_log o flag ++ l3 ++ [])
        by (rewrite app_nil_r; reflexivity).
      apply (Hcase (export_log o flag) l3 [] (SystemExit c) s3); auto.
Qed.

End ScriptFiles.

Section ScriptFileClaims.
Import Py CreateModelSpec Samples MoreSpec ScriptCreateModel.

Lemma opened_app (a b : list event) : opened (a ++ b) = opened a ++ opened b.
Proof. apply flat_map_app. Qed.

Lemma export_log_quiet (o flag : string) :
  dumped (export_log o flag) = [] /\ opened (export_log o flag) = [] /\
  exists rest,
    [path_join o "credit_model.onnx"] = exported (export_log o flag) ++ rest.
Proof.
  unfold export_log. destruct (flag =? "1"); repeat split;
    eexists; reflexivity.
Qed.

Lemma closing_line_quiet (o flag : string) :
  writes (closing_line o flag) = false.
Proof. unfold closing_line. destruct (flag =? "1"); reflexivity. Qed.

(** X10 (order of the writes).  In every run of the script variant: the
    paths dumped, and the paths opened for writing, are an initial segment
    of input.json, scaling_debug.json, metadata.json in the output
    directory; the only path ever exported to is credit_model.onnx in the
    output directory, at most once; and nothing is exported, opened or
    dumped unless the run started by creating the output directory. *)
Theorem writes_in_order (w : World) (argv : list string) :
  (exists rest,
     artifact_paths (nth 1 argv "") = dumped (trace argv w) ++ rest) /\
  (exists rest,
     artifact_paths (nth 1 argv "") = opened (trace argv w) ++ rest) /\
  (exists rest,
     [path_join (nth 1 argv "") "credit_model.onnx"] =
     exported (trace argv w) ++ rest) /\
  (forall before e after,
     trace argv w = before ++ e :: after -> writes e = true ->
     exists between, before = Makedirs (nth 1 argv "") true :: between).
Proof.
  destruct (script_run_shape w argv)
    as [[lines E]|(p & o & a & f & flag & more & items & -> & Hit)].
  { unfold trace. rewrite E. cbn [fst].
    assert (Hq : Forall (fun e => writes e = false) (map Print lines)).
    { apply Forall_forall. intros e He. apply in_map_iff in He.
      destruct He as (l & <- & _). reflexivity. }
    destruct (quiet_log _ Hq) as (-> & -> & ->).
    repeat split; try (eexists; reflexivity).
    intros before e after Hs He. exfalso.
    assert (Hin : In e (map Print lines))
      by (rewrite Hs; apply in_or_app; right; left; reflexivity).
    rewrite (proj1 (Forall_forall _ _) Hq e Hin) in He. discriminate. }
  cbn [nth argv_of].
  destruct (script_run_log w p o a f flag more items Hit)
    as (quiet & tail & -> & Hq & Htail).
  destruct (quiet_log _ Hq) as (Hq1 & Hq2 & Hq3).
  assert (Hfiles :
    (exists rest, artifact_paths o = dumped tail ++ rest) /\
    (exists rest, artifact_paths o = opened tail ++ rest) /\
    (exists rest, [path_join o "credit_model.onnx"] = exported tail ++ rest)).
  { destruct tail as [|e0 tail0]; [repeat split; eexists; reflexivity|].
    destruct Htail as (_ & x & _ & l2 & r3 & s3 & l3 & last & -> & H2 & H3 & H4);
      [discriminate|].
    assert (Hlast : dumped last = [] /\ opened last = [] /\ exported last = []).
    { destruct H4 as [->| ->]; [repeat split|].
      apply quiet_log. constructor; [apply closing_line_quiet|constructor]. }
    destruct Hlast as (Hl1 & Hl2 & Hl3).
    assert (H3' : (exists rest, artifact_paths o = dumped l3 ++ rest) /\
                  (exists rest, artifact_paths o = opened l3 ++ rest) /\
                  exported l3 = []).
    { destruct H3 as [->|H3]; [repeat split; eexists; reflexivity|].
      destruct (artifacts_detail w o a (JArray items) x start)
        as (r & s' & l & Ha & Hd & Ho & He & _).
      rewrite H3 in Ha. injection Ha as _ _ <-. auto. }
    destruct H3' as ([r1 Hd] & [r2 Ho] & He).
    rewrite !dumped_app, !opened_app, !exported_app, Hl1, Hl2, Hl3, He,
      !app_nil_r.
    destruct H2 as [->|(-> & _ & ->)].
    - destruct (export_log_quiet o flag) as (-> & -> & Hx).
      cbn [app]. rewrite ?app_nil_r. eauto.
    - cbn. repeat split; eexists; reflexivity. }
  destruct Hfiles as ([r1 Hd] & [r2 Ho] & [r3 He]).
  unfold dumped, opened, exported in *. cbn [flat_map dumped_of opened_of exported_of app].
  rewrite !flat_map_app, Hq1, Hq2, Hq3. cbn [app].
  repeat split; eauto.
  intros before e after Hs He'.
  destruct before as [|e0 before]; injection Hs as <- Hs.
  - discriminate.
  - exists before. f_equal. f_equal.
    apply Htail. intros ->. rewrite app_nil_r in Hs.
    assert (Hin : In e quiet)
      by (rewrite Hs; apply in_or_app; right; left; reflexivity).
    rewrite (proj1 (Forall_forall _ _) Hq e Hin) in He'. discriminate.
Qed.

(** Every dump of a run comes from the last block, after the score was
    scaled. *)
Lemma run_dump (w : World) (argv : list string) (p : string) (c : json) :
  In (Dump p c) (trace argv w) ->
  exists v x z,
    json_loads w (nth 3 argv "") = Some v /\
    torch_score w CreditScoreModel v = Some x /\
    int (x * 1000) w start = (Val z, start, []) /\
    derived (nth 2 argv "") v x z c /\
    carries (nth 1 argv "") (nth 2 argv "") v x z p c.
Proof.
  intros Hin.
  destruct (script_run_shape w argv)
    as [[lines E]|(p0 & o & a & f & flag & more & items & -> & Hit)].
  { exfalso. unfold trace in Hin. rewrite E in Hin. cbn [fst] in Hin.
    apply in_map_iff in Hin. destruct Hin as (l & H & _). discriminate. }
  cbn [nth argv_of].
  destruct (script_run_log w p0 o a f flag more items Hit)
    as (quiet & tail & E & Hq & Htail).
  rewrite E in Hin. destruct Hin as [H|Hin]; [discriminate|].
  apply in_app_or in Hin. destruct Hin as [Hin|Hin].
  { exfalso. pose proof (proj1 (Forall_forall _ _) Hq _ Hin) as H.
    discriminate. }
  destruct Htail as (_ & x & Ht & l2 & r3 & s3 & l3 & last & -> & H2 & H3 & H4).
  { intros ->. destruct Hin. }
  exists (JArray items), x.
  assert (Hl3 : In (Dump p c) l3).
  { apply in_app_or in Hin. destruct Hin as [Hin|Hin].
    - exfalso. destruct H2 as [->|(_ & _ & ->)].
      + unfold export_log in Hin.
        destruct (flag =? "1"); cbn [In] in Hin; intuition discriminate.
      + cbn [In] in Hin. intuition discriminate.
    - apply in_app_or in Hin. destruct Hin as [Hin|Hin]; [exact Hin|].
      exfalso. destruct H4 as [->| ->]; [destruct Hin|].
      destruct Hin as [H|[]]. unfold closing_line in H.
      destruct (flag =? "1"); discriminate. }
  destruct H3 as [->|H3]; [destruct Hl3|].
  destruct (artifacts_detail w o a (JArray items) x start)
    as (r & s' & l & Ha & _ & _ & _ & _ & Hdump).
  rewrite H3 in Ha. injection Ha as _ _ <-.
  destruct (Hdump p c Hl3) as (z & Hz & Hder & Hcar).
  exists z. split; [exact (proj1 Hit)|]. split; [exact Ht|].
  split; [exact Hz|]. split; [exact Hder|exact Hcar].
Qed.

(** X11 (where the written values come from).  Whatever a run of the script
    variant dumps goes to one of its three files, and holds the arguments
    and the scores: input.json has the value [json.loads] gave for the
    features argument, unchanged, as its one row of input_data, and the
    score torch gave for those features as output_data; scaling_debug.json
    and metadata.json have the address argument as address, those features
    as features, that score as original_score (score in the metadata), and
    the integer part of 1000 times that score as scaled_score.  No dumped
    object holds another value under one of these keys. *)
Theorem dumped_values (w : World) (argv : list string) (p : string)
    (c : json) :
  In (Dump p c) (trace argv w) ->
  exists v x z,
    json_loads w (nth 3 argv "") = Some v /\
    torch_score w CreditScoreModel v = Some x /\
    int (x * 1000) w start = (Val z, start, []) /\
    ((p = path_join (nth 1 argv "") "input.json" /\
      field "input_data" c = Some (JArray [v]) /\
      field "output_data" c = Some (JArray [JArray [JFloat x]])) \/
     (p = path_join (nth 1 argv "") "scaling_debug.json" /\
      field "address" c = Some (JString (nth 2 argv "")) /\
      field "features" c = Some v /\
      field "original_score" c = Some (JFloat x) /\
      field "scaled_score" c = Some (JInt z)) \/
     (p = path_join (nth 1 argv "") "metadata.json" /\
      field "address" c = Some (JString (nth 2 argv "")) /\
      field "features" c = Some v /\
      field "score" c = Some (JFloat x) /\
      field "scaled_score" c = Some (JInt z))) /\
    (forall j, field "address" c = Some j -> j = JString (nth 2 argv "")) /\
    (forall j, field "features" c = Some j -> j = v) /\
    (forall j, field "input_data" c = Some j -> j = JArray [v]) /\
    (forall j, field "output_data" c = Some j ->
               j = JArray [JArray [JFloat x]]) /\
    (forall j, field "score" c = Some j -> j = JFloat x) /\
    (forall j, field "original_score" c = Some j -> j = JFloat x) /\
    (forall j, field "scaled_score" c = Some j -> j = JInt z).
Proof.
  intros Hin.
  destruct (run_dump w argv p c Hin)
    as (v & x & z & Hv & Hx & Hz & Hd & Hcar).
  exists v, x, z. split; [exact Hv|]. split; [exact Hx|]. split; [exact Hz|].
  split.
  - destruct Hcar as [H|[H|H]].
    + left. exact H.
    + right. left. tauto.
    + right. right. exact H.
  - unfold derived in Hd. tauto.
Qed.

End ScriptFileClaims.

(* ===================================================================== *)
(** ** The tiers and the favorable rate                                   *)
(* ===================================================================== *)

Section Tiers.
Import Py CreateModelSpec Samples MoreSpec ScriptCreateModel.

(** A score below 0.4 is not above 0.5. *)
Lemma low_not_favorable (x : float) :
  (x <? 0.4)%float = true -> (0.5 <? x)%float = false.
Proof.
  rewrite !ltb_spec.
  change (Prim2SF 0.4) with (S754_finite false 7205759403792794 (-54)).
  change (Prim2SF 0.5) with (S754_finite false 4503599627370496 (-53)).
  unfold SFltb, SFcompare.
  destruct (Prim2SF x) as [sg|sg| |sg m e].
  - reflexivity.
  - destruct sg; [reflexivity|discriminate].
  - discriminate.
  - destruct sg; [reflexivity|].
    intros H.
    assert (He : (e <= -54)%Z).
    { destruct (Z.compare_spec e (-54)) as [E|E|E]; [lia|lia|discriminate H]. }
    assert (Hc : (-53 ?= e)%Z = Gt) by (apply Z.compare_gt_iff; lia).
    rewrite Hc. reflexivity.
Qed.

(** A number that is not below 0.7 is above 0.5. *)
Lemma high_favorable (x : float) :
  Prim2SF x <> S754_nan ->
  (x <? 0.7)%float = false -> (0.5 <? x)%float = true.
Proof.
  rewrite !ltb_spec.
  change (Prim2SF 0.7) with (S754_finite false 6305039478318694 (-53)).
  change (Prim2SF 0.5) with (S754_finite false 4503599627370496 (-53)).
  unfold SFltb, SFcompare.
  destruct (Prim2SF x) as [sg|sg| |sg m e]; intros Hn.
  - discriminate.
  - destruct sg; [discriminate|reflexivity].
  - destruct (Hn eq_refl).
  - destruct sg; [discriminate|].
    intros H.
    destruct (Z.compare_spec e (-53)) as [E|E|E]; [|discriminate H|].
    + subst e. rewrite Z.compare_refl.
      rewrite Pos.compare_cont_spec in *. cbn [Pos.switch_Eq] in *.
      assert (Hm : (6305039478318694 <= m)%positive).
      { destruct (Pos.compare_spec m 6305039478318694) as [E|E|E];
          [lia|discriminate H|lia]. }
      assert (Hc : (4503599627370496 ?= m)%positive = Lt)
        by (apply Pos.compare_lt_iff; lia).
      rewrite Hc. reflexivity.
    + assert (Hc : (-53 ?= e)%Z = Lt) by (apply Z.compare_lt_iff; lia).
      rewrite Hc. reflexivity.
Qed.

(** X12 (tier and rate agree).  No file a run of the script variant dumps
    pairs the tier LOW with a favorable rate, or the tier HIGH with no
    favorable rate: a score below 0.4 is not above 0.5, and a score that is
    not below 0.7 is above 0.5 unless it is a NaN -- and a NaN score stops
    the run at [int(score * 1000)], before any file is written. *)
Theorem tier_matches_rate (w : World) (argv : list string) (p : string)
    (c : json) :
  In (Dump p c) (trace argv w) ->
  (field "credit_tier" c = Some (JString "LOW") ->
   field "favorable_rate_eligible" c <> Some (JBool true)) /\
  (field "credit_tier" c = Some (JString "HIGH") ->
   field "favorable_rate_eligible" c <> Some (JBool false)).
Proof.
  intros Hin.
  destruct (run_dump w argv p c Hin) as (v & x & z & _ & _ & Hz & Hd & _).
  pose proof (int_val_number w x _ _ _ _ Hz) as Hnan.
  destruct Hd as (_ & _ & _ & _ & _ & _ & _ & Htier & Hrate).
  split; intros Ht Hr; specialize (Htier _ Ht); specialize (Hrate _ Hr);
    injection Htier as Htier; injection Hrate as Hrate;
    unfold tier_of in Htier.
  - destruct (x <? 0.4)%float eqn:E4.
    + rewrite (low_not_favorable x E4) in Hrate. discriminate.
    + destruct (x <? 0.7)%float; discriminate.
  - destruct (x <? 0.4)%float; [discriminate|].
    destruct (x <? 0.7)%float eqn:E7; [discriminate|].
    rewrite (high_favorable x Hnan E7) in Hrate. discriminate.
Qed.

End Tiers.

(* ===================================================================== *)
(** ** create_model.py: the model file comes first                        *)
(* ===================================================================== *)

Section RootFiles.
Import Py CreateModelSpec Samples MoreSpec CreateModel.

Lemma files_follow_export_split (tr : list event) :
  forall seen, files_follow_export seen tr = true ->
  forall before e after,
    tr = before ++ e :: after ->
    (exists p b, e = OpenW p b) \/ (exists p c, e = Dump p c) ->
    seen = true \/ exists net p, In (Export net p true) before.
Proof.
  induction tr as [|e0 tr IH]; intros seen H before e after Hs He.
  - destruct before; discriminate.
  - destruct before as [|b0 before]; cbn [app] in Hs; injection Hs as <- ->.
    + left. destruct He as [(p & b & ->)|(p & c & ->)]; cbn in H;
        apply andb_prop in H; tauto.
    + assert (Hcase : (exists seen', files_follow_export seen' (before ++ e :: after) = true /\
                        (seen' = true -> seen = true \/ exists net p, e0 = Export net p true))).
      { destruct e0; cbn in H; try (exists seen; split; [exact H|auto]).
        - destruct done.
          + exists true. split; [exact H|]. intros _. right. eauto.
          + exists seen. split; [exact H|auto].
        - apply andb_prop in H. exists seen. split; [tauto|auto].
        - apply andb_prop in H. exists seen. split; [tauto|auto]. }
      destruct Hcase as (seen' & H' & Hseen).
      destruct (IH seen' H' before e after eq_refl He) as [Ht|(net & p & Hin)].
      * destruct (Hseen Ht) as [Hl|(net & p & ->)]; [left; exact Hl|].
        right. exists net, p. left. reflexivity.
      * right. exists net, p. right. exact Hin.
Qed.

(** A run of the root variant either stops in the validation, having
    printed only, or has arguments that pass it. *)
Lemma root_run_shape (w : World) (argv : list string) :
  (exists lines, run argv w = (map Print lines, 1%Z)) \/
  ((4 <= length argv)%nat /\ exists items, four_items w (nth 3 argv "") items).
Proof.
  destruct (Nat.ltb_spec (length argv) 4) as [Hlt|Hge].
  - left. destruct (root_run_refused w argv (or_introl Hlt))
      as (lines & _ & E). eauto.
  - destruct (refused_or_four w (nth 3 argv "")) as [Href|Hit].
    + left. destruct (root_run_refused w argv (or_intror Href))
        as (lines & _ & E). eauto.
    + right. auto.
Qed.

Ltac root_leaf :=
  cbn [fst snd app exit_status];
  split;
  [ intros ? ? ? ?; cbn [In] in *; intuition congruence
  | split; [reflexivity|try discriminate; intros _; split; reflexivity] ].

(** X13 (the model file comes first).  In every run of the root variant the
    only export is of the linear model to credit_model.onnx in the output
    directory; no JSON file is opened or dumped unless that export came
    before and succeeded; and a run with status 0 has exported once and
    dumped input.json, scaling_debug.json and metadata.json, in that
    order. *)
Theorem root_exports_first (w : World) (argv : list string) :
  (forall net p b, In (Export net p b) (trace argv w) ->
     net = LinearCreditScoreModel /\
     p = path_join (nth 1 argv "") "credit_model.onnx") /\
  (forall before e after,
     trace argv w = before ++ e :: after ->
     (exists p b, e = OpenW p b) \/ (exists p c, e = Dump p c) ->
     In (Export LinearCreditScoreModel
           (path_join (nth 1 argv "") "credit_model.onnx") true) before) /\
  (status argv w = 0%Z ->
   exported (trace argv w) =
     [path_join (nth 1 argv "") "credit_model.onnx"] /\
   dumped (trace argv w) = artifact_paths (nth 1 argv "")).
Proof.
  assert (Hall :
    (forall net p b, In (Export net p b) (trace argv w) ->
       net = LinearCreditScoreModel /\
       p = path_join (nth 1 argv "") "credit_model.onnx") /\
    files_follow_export false (trace argv w) = true /\
    (status argv w = 0%Z ->
     exported (trace argv w) =
       [path_join (nth 1 argv "") "credit_model.onnx"] /\
     dumped (trace argv w) = artifact_paths (nth 1 argv ""))).
  { unfold trace, status.
    destruct (root_run_shape w argv) as [[lines E]|(Hge & items & Hit)].
    { rewrite E. cbn [fst snd]. split; [|split; [|discriminate]].
      - intros net p b Hin. apply in_map_iff in Hin.
        destruct Hin as (l & H & _). discriminate.
      - clear E. induction lines as [|l lines IH]; [reflexivity|exact IH]. }
    remember (run argv w) as R eqn:ER.
    unfold run, script, bind at 1 in ER.
    rewrite (root_validate_accepted w argv start items Hge Hit) in ER.
    revert ER.
    generalize (nth 1 argv "") as o, (nth 2 argv "") as a. intros o a.
    unfold scoring, export_step, artifacts, artifact_paths, int, bind, ret,
      raise, os_makedirs, score_of, onnx_export, print, dump_to, time_now.
    destruct (makedirs_ok w o); cbv beta iota;
      [|intros ->; root_leaf].
    destruct (torch_score w LinearCreditScoreModel (JArray items)) as [x|];
      cbv beta iota; [|intros ->; root_leaf].
    destruct (export_ok w LinearCreditScoreModel
                (path_join o "credit_model.onnx")); cbv beta iota;
      [|intros ->; root_leaf].
    destruct (Prim2SF (x * 1000)) as [sg|sg| |sg m e]; cbv beta iota;
      try (intros ->; root_leaf);
      (destruct (open_ok w (path_join o "input.json")); cbv beta iota;
       [destruct (open_ok w (path_join o "scaling_debug.json")); cbv beta iota;
        [destruct (open_ok w (path_join o "metadata.json")); cbv beta iota|]|]);
      intros ->; root_leaf. }
  destruct Hall as (Hexp & Hfol & Hok).
  split; [exact Hexp|]. split; [|exact Hok].
  intros before e after Hs He.
  destruct (files_follow_export_split _ false Hfol before e after Hs He)
    as [H|(net & p & Hin)]; [discriminate|].
  destruct (Hexp net p true) as [-> ->]; [|exact Hin].
  rewrite Hs. apply in_or_app. left. exact Hin.
Qed.

End RootFiles.

(* ===================================================================== *)
(** ** The further properties on concrete runs                            *)
(* ===================================================================== *)

Section RunEzklMoreWitnesses.
Import Py RunEzkl RunEzklSpec Samples MoreSpec.

Lemma stage_launch_failure_witness :
  In (Spawn (Some "proof_generation") prove_command false NotStarted)
     (trace (sample_args true) (vanishing "prove")) /\
  (exists before,
     trace (sample_args true) (vanishing "prove") =
     before ++ [Print [Text "Generating proof..."];
                Spawn (Some "proof_generation") prove_command false
                  NotStarted]) /\
  (forall c, ~ In (Print [Text ("Failed step: " ++ join " " c)])
                  (trace (sample_args true) (vanishing "prove"))) /\
  (forall c,
     In c (map fst (skipn 6 (steps (sample_args true)) ++
                    contract_step (sample_args true))) ->
     ~ In c (invoked (trace (sample_args true) (vanishing "prove")))) /\
  status (sample_args true) (vanishing "prove") = 1%Z.
Proof.
  split; [vm_compute; repeat first [left; reflexivity | right]|].
  apply (stage_launch_failure (sample_args true) (vanishing "prove")
           (firstn 5 (steps (sample_args true)))
           (skipn 6 (steps (sample_args true)) ++
            contract_step (sample_args true))
           prove_command "Generating proof..." (Some "proof_generation")
           false).
  - reflexivity.
  - vm_compute; repeat first [left; reflexivity | right].
Defined.

Lemma progress_before_command_witness :
  trace (sample_args true) calm =
    firstn 9 (trace (sample_args true) calm) ++
    Spawn (Some "proof_generation") setup_command false (Returned 0 "") ::
    skipn 10 (trace (sample_args true) calm) /\
  exists earlier msg,
    firstn 9 (trace (sample_args true) calm) =
      earlier ++ [Print [Text msg]] /\
    In (setup_command, msg)
       (steps (sample_args true) ++ contract_step (sample_args true)).
Proof.
  split; [reflexivity|].
  apply (progress_before_command (sample_args true) calm
           (firstn 9 (trace (sample_args true) calm))
           (skipn 10 (trace (sample_args true) calm))
           (Some "proof_generation") setup_command (Returned 0 "")).
  reflexivity.
Defined.

Lemma failure_position_witness :
  spawn (failing "setup" 1) setup_command = Returned 1 "error" /\
  invoked (trace (sample_args true) (failing "setup" 1)) =
    preflight :: map fst (firstn 3 (steps (sample_args true))) ++
    [setup_command] /\
  (exists before,
     console (trace (sample_args true) (failing "setup" 1)) =
     before ++ [ChildOutput setup_command "error";
                Line [Text ("Failed step: " ++ join " " setup_command)]]) /\
  status (sample_args true) (failing "setup" 1) = 1%Z.
Proof.
  split; [reflexivity|].
  apply (failure_position (sample_args true) (failing "setup" 1)
           (firstn 3 (steps (sample_args true)))
           (skipn 4 (steps (sample_args true)) ++
            contract_step (sample_args true))
           setup_command "Running setup to generate keys..." 1 "error").
  - reflexivity.
  - exists "". reflexivity.
  - reflexivity.
  - intros c Hc. exists "".
    destruct Hc as [<-|[<-|[<-|[]]]]; reflexivity.
  - reflexivity.
  - discriminate.
Defined.

End RunEzklMoreWitnesses.

Section CreateModelMoreWitnesses.
Import Py CreateModelSpec Samples MoreSpec ScriptCreateModel.

Lemma only_one_generates_witness :
  "0" <> "1" /\ "true" <> "1" /\
  run (sample_argv four_numbers "0") calm =
  run (sample_argv four_numbers "true") calm.
Proof.
  split; [discriminate|]. split; [discriminate|].
  apply (only_one_generates calm "./script/create_model.py" "out" "0xabc"
           four_numbers "0" "true" []); discriminate.
Defined.

Lemma dumped_values_witness :
  In (Dump "out/scaling_debug.json" sample_debug)
     (trace (sample_argv four_numbers "0") calm) /\
  exists v x z,
    json_loads calm four_numbers = Some v /\
    torch_score calm CreditScoreModel v = Some x /\
    int (x * 1000) calm start = (Val z, start, []) /\
    (("out/scaling_debug.json" = "out/input.json" /\
      field "input_data" sample_debug = Some (JArray [v]) /\
      field "output_data" sample_debug = Some (JArray [JArray [JFloat x]])) \/
     ("out/scaling_debug.json" = "out/scaling_debug.json" /\
      field "address" sample_debug = Some (JString "0xabc") /\
      field "features" sample_debug = Some v /\
      field "original_score" sample_debug = Some (JFloat x) /\
      field "scaled_score" sample_debug = Some (JInt z)) \/
     ("out/scaling_debug.json" = "out/metadata.json" /\
      field "address" sample_debug = Some (JString "0xabc") /\
      field "features" sample_debug = Some v /\
      field "score" sample_debug = Some (JFloat x) /\
      field "scaled_score" sample_debug = Some (JInt z))) /\
    (forall j, field "address" sample_debug = Some j -> j = JString "0xabc") /\
    (forall j, field "features" sample_debug = Some j -> j = v) /\
    (forall j, field "input_data" sample_debug = Some j -> j = JArray [v]) /\
    (forall j, field "output_data" sample_debug = Some j ->
               j = JArray [JArray [JFloat x]]) /\
    (forall j, field "score" sample_debug = Some j -> j = JFloat x) /\
    (forall j, field "original_score" sample_debug = Some j ->
               j = JFloat x) /\
    (forall j, field "scaled_score" sample_debug = Some j -> j = JInt z).
Proof.
  split; [vm_compute; repeat first [left; reflexivity | right]|].
  apply (dumped_values calm (sample_argv four_numbers "0")
           "out/scaling_debug.json" sample_debug).
  vm_compute; repeat first [left; reflexivity | right].
Defined.

Lemma tier_matches_rate_witness :
  (In (Dump "out/scaling_debug.json" (debug_at 0.25 250 "LOW" false))
      (trace (sample_argv four_numbers "0") (scoring_at 0.25)) /\
   field "credit_tier" (debug_at 0.25 250 "LOW" false) =
     Some (JString "LOW") /\
   field "favorable_rate_eligible" (debug_at 0.25 250 "LOW" false) <>
     Some (JBool true)) /\
  (In (Dump "out/scaling_debug.json" (debug_at 0.75 750 "HIGH" true))
      (trace (sample_argv four_numbers "0") (scoring_at 0.75)) /\
   field "credit_tier" (debug_at 0.75 750 "HIGH" true) =
     Some (JString "HIGH") /\
   field "favorable_rate_eligible" (debug_at 0.75 750 "HIGH" true) <>
     Some (JBool false)).
Proof.
  assert (Hlow :
    In (Dump "out/scaling_debug.json" (debug_at 0.25 250 "LOW" false))
       (trace (sample_argv four_numbers "0") (scoring_at 0.25)))
    by (vm_compute; repeat first [left; reflexivity | right]).
  assert (Hhigh :
    In (Dump "out/scaling_debug.json" (debug_at 0.75 750 "HIGH" true))
       (trace (sample_argv four_numbers "0") (scoring_at 0.75)))
    by (vm_compute; repeat first [left; reflexivity | right]).
  split.
  - split; [exact Hlow|]. split; [reflexivity|].
    apply (proj1 (tier_matches_rate (scoring_at 0.25)
                    (sample_argv four_numbers "0") "out/scaling_debug.json"
                    (debug_at 0.25 250 "LOW" false) Hlow)).
    reflexivity.
  - split; [exact Hhigh|]. split; [reflexivity|].
    apply (proj2 (tier_matches_rate (scoring_at 0.75)
                    (sample_argv four_numbers "0") "out/scaling_debug.json"
                    (debug_at 0.75 750 "HIGH" true) Hhigh)).
    reflexivity.
Defined.

End CreateModelMoreWitnesses.
